(** * A2A task server: update model, lifecycle controller, streaming and cancel

    A shallow embedding of the TypeScript server of the repository
    (tasks.ts: [applyUpdateToTaskAndHistory] and the event constructors;
    jsonrpc.ts: [isValidJsonRpcRequest], [createSuccessResponse],
    [createErrorResponse]; error.ts: [A2AError], [normalizeError];
    server.ts: the JSON-RPC route, [loadOrCreateTaskAndHistory],
    [taskSend], [taskSendSubscribe], [taskGet], [taskCancel]; store.ts: the
    [TaskStore] interface; index.ts: the task handler), followed by the
    properties of the specification that concern them and by further
    properties of the code. *)

From Stdlib Require Import ZArith String List Bool Lia Sorted Permutation.
From stdpp Require Import base option list gmap strings.

Local Open Scope string_scope.
Local Open Scope list_scope.
Local Open Scope Z_scope.

(** ** JSON values

    What [c.req.json()] hands to the server, and what free-form metadata
    holds.  An object is kept as its list of members in source order. *)

#[warnings="-register-all"]
Inductive JSON : Type :=
  | JNull
  | JBool (b : bool)
  | JNumber (n : Z)
  | JString (s : string)
  | JArray (items : list JSON)
  | JObject (members : list (string * JSON)).

(** [o.k] for a parsed object: the last member named [k] wins, as
    [JSON.parse] keeps the last duplicate; [None] is [undefined]. *)
Fixpoint obj_get (k : string) (members : list (string * JSON)) : option JSON :=
  match members with
  | [] => None
  | (k', v) :: rest =>
      match obj_get k rest with
      | Some v' => Some v'
      | None => if String.eqb k' k then Some v else None
      end
  end.

(** [o[k] = v] on a plain object: overwrite in place, or add at the end. *)
Fixpoint obj_set (k : string) (v : JSON) (members : list (string * JSON))
  : list (string * JSON) :=
  match members with
  | [] => [(k, v)]
  | (k', v') :: rest =>
      if String.eqb k' k then (k', v) :: rest else (k', v') :: obj_set k v rest
  end.

(** [{ ...a, ...b }] *)
Definition obj_spread (a b : list (string * JSON)) : list (string * JSON) :=
  fold_left (fun acc kv => obj_set (fst kv) (snd kv) acc) b a.

(** ** Data model (schema) *)

Definition Metadata := list (string * JSON).
Definition Timestamp := string.

Inductive TaskState : Type :=
  | submitted | working | input_required | completed | canceled | failed | unknown.

Definition TaskState_eqb (a b : TaskState) : bool :=
  match a, b with
  | submitted, submitted | working, working | input_required, input_required
  | completed, completed | canceled, canceled | failed, failed
  | unknown, unknown => true
  | _, _ => false
  end.

(** [states.includes(s)] *)
Definition includes (states : list TaskState) (s : TaskState) : bool :=
  existsb (TaskState_eqb s) states.

Inductive Role : Type := user | agent.

Inductive Part : Type :=
  | TextPart (text : string)
  | FilePart (file : JSON)
  | DataPart (data : JSON).

Record Message : Type := mkMessage {
  role : Role;
  m_parts : list Part;
  m_metadata : option Metadata
}.

(** A property that may hold [undefined], [null] or a value. *)
Inductive Nullable (A : Type) : Type :=
  | Undefined
  | Null
  | Value (a : A).
Arguments Undefined {A}.
Arguments Null {A}.
Arguments Value {A} a.

Record TaskStatus : Type := mkTaskStatus {
  state : TaskState;
  message : Nullable Message;
  timestamp : Timestamp
}.

(** [Omit<TaskStatus, 'timestamp'>] as a handler yields it.  [None] is a key
    the object does not have.  The static type leaves [timestamp] out; an
    object built by a handler can still carry the key, and the spread in
    [applyUpdateToTaskAndHistory] copies whatever keys are there. *)
Record StatusUpdate : Type := mkStatusUpdate {
  u_state : TaskState;
  u_message : option (Nullable Message);
  u_timestamp : option Timestamp
}.

Record Artifact : Type := mkArtifact {
  name : option string;
  description : option string;
  parts : list Part;
  index : option Z;
  append : option bool;
  lastChunk : option bool;
  a_metadata : option Metadata
}.

Record Task : Type := mkTask {
  id : string;
  sessionId : option string;
  status : TaskStatus;
  artifacts : option (list Artifact);
  metadata : option Metadata
}.

(** store.ts *)
Record TaskAndHistory : Type := mkTaskAndHistory {
  task : Task;
  history : list Message
}.

(** What a handler can yield: the union
    [Omit<TaskStatus,'timestamp'> | Artifact], and any other value, which the
    server skips with a warning. *)
Inductive TaskYieldUpdate : Type :=
  | StatusValue (u : StatusUpdate)
  | ArtifactValue (a : Artifact)
  | OtherValue (v : JSON).

(** Modelled from the spec: [isTaskStatusUpdate] of utils.ts, which is not
    among the sources.  An update is told apart by its shape: it is a status
    update when it has a [state]. *)
Definition isTaskStatusUpdate (update : TaskYieldUpdate) : bool :=
  match update with StatusValue _ => true | _ => false end.

(** Modelled from the spec: [isArtifactUpdate] of utils.ts, which is not
    among the sources: [parts] present and no [state]. *)
Definition isArtifactUpdate (update : TaskYieldUpdate) : bool :=
  match update with ArtifactValue _ => true | _ => false end.

(** ** tasks.ts *)

(** JavaScript truthiness of an optional string. *)
Definition truthy (s : option string) : bool :=
  match s with
  | Some s => negb (String.eqb s "")
  | None => false
  end.

(** [a.name === update.name], for an [update.name] already known truthy. *)
Definition same_name (n : option string) (a : Artifact) : bool :=
  match name a, n with
  | Some x, Some y => String.eqb x y
  | _, _ => false
  end.

(** [Array.prototype.findIndex]; [None] stands for [-1]. *)
Fixpoint findIndex {A : Type} (p : A -> bool) (l : list A) : option nat :=
  match l with
  | [] => None
  | x :: rest => if p x then Some 0%nat else option_map S (findIndex p rest)
  end.

(** [a.index ?? 0] *)
Definition index_or_0 (a : Artifact) : Z :=
  match index a with Some i => i | None => 0 end.

(** [Array.prototype.sort((a, b) => (a.index ?? 0) - (b.index ?? 0))].
    The sort of the language is stable, and a stable sort by a key has one
    possible result; it is computed here by stable insertion. *)
Fixpoint insert_by_index (a : Artifact) (l : list Artifact) : list Artifact :=
  match l with
  | [] => [a]
  | b :: rest =>
      if index_or_0 a <=? index_or_0 b then a :: b :: rest
      else b :: insert_by_index a rest
  end.

Fixpoint sort_by_index (l : list Artifact) : list Artifact :=
  match l with
  | [] => []
  | a :: rest => insert_by_index a (sort_by_index rest)
  end.

(** The [update.append] branch: a deep copy of the existing artifact with
    the update folded in. *)
Definition appendedArtifact (existingArtifact update : Artifact) : Artifact :=
  {| name := name existingArtifact;
     description :=
       if truthy (description update) then description update
       else description existingArtifact;
     parts := parts existingArtifact ++ parts update;
     index := index existingArtifact;
     append := append existingArtifact;
     lastChunk :=
       match lastChunk update with
       | Some c => Some c
       | None => lastChunk existingArtifact
       end;
     a_metadata :=
       match a_metadata update with
       | Some m =>
           Some (obj_spread (match a_metadata existingArtifact with
                             | Some m0 => m0
                             | None => []
                             end) m)
       | None => a_metadata existingArtifact
       end |}.

(** The artifact branch on the copied array; returns the new array. *)
Definition applyArtifact (arts : list Artifact) (update : Artifact) : list Artifact :=
  let existingIndex := match index update with Some i => i | None => -1 end in
  let '(arts1, replaced) :=
    if (0 <=? existingIndex) && (existingIndex <? Z.of_nat (length arts)) then
      match arts !! Z.to_nat existingIndex with
      | Some existingArtifact =>
          if match append update with Some true => true | _ => false end
          then (<[Z.to_nat existingIndex := appendedArtifact existingArtifact update]> arts, true)
          else (<[Z.to_nat existingIndex := update]> arts, true)
      | None => (arts, false)
      end
    else if truthy (name update) then
      match findIndex (same_name (name update)) arts with
      | Some namedIndex => (<[namedIndex := update]> arts, true)
      | None => (arts, false)
      end
    else (arts, false) in
  if replaced then arts1
  else
    let pushed := arts1 ++ [update] in
    if existsb (fun a => match index a with Some _ => true | None => false end) pushed
    then sort_by_index pushed
    else pushed.

(** [update.message?.role === 'agent'] *)
Definition agent_message (m : option (Nullable Message)) : option Message :=
  match m with
  | Some (Value msg) => match role msg with agent => Some msg | user => None end
  | _ => None
  end.

(** [now] is the value [getCurrentTimestamp()] returns when it is called
    (utils.ts, the clock); only the status branch calls it. *)
Definition applyUpdateToTaskAndHistory (now : Timestamp)
    (current : TaskAndHistory) (update : TaskYieldUpdate) : TaskAndHistory :=
  let newTask := task current in
  let newHistory := history current in
  match update with
  | StatusValue u =>
      let newStatus :=
        {| state := u_state u;
           message := match u_message u with
                      | Some m => m
                      | None => message (status newTask)
                      end;
           timestamp := now |} in
      {| task := {| id := id newTask; sessionId := sessionId newTask;
                    status := newStatus; artifacts := artifacts newTask;
                    metadata := metadata newTask |};
         history := match agent_message (u_message u) with
                    | Some msg => newHistory ++ [msg]
                    | None => newHistory
                    end |}
  | ArtifactValue a =>
      let arts := match artifacts newTask with Some l => l | None => [] end in
      {| task := {| id := id newTask; sessionId := sessionId newTask;
                    status := status newTask;
                    artifacts := Some (applyArtifact arts a);
                    metadata := metadata newTask |};
         history := newHistory |}
  | OtherValue _ => {| task := newTask; history := newHistory |}
  end.

Record TaskStatusUpdateEvent : Type := mkStatusEvent {
  se_id : string;
  se_status : TaskStatus;
  se_final : bool
}.

Record TaskArtifactUpdateEvent : Type := mkArtifactEvent {
  ae_id : string;
  ae_artifact : Artifact;
  ae_final : bool
}.

Definition createTaskStatusEvent (taskId : string) (st : TaskStatus) (final : bool)
  : TaskStatusUpdateEvent :=
  {| se_id := taskId; se_status := st; se_final := final |}.

Definition createTaskArtifactEvent (taskId : string) (a : Artifact) (final : bool)
  : TaskArtifactUpdateEvent :=
  {| ae_id := taskId; ae_artifact := a; ae_final := final |}.

(** ** error.ts *)

Inductive ErrorCode : Type :=
  | ParseError | InvalidRequest | MethodNotFound | InvalidParams | InternalError
  | TaskNotFound | TaskNotCancelable | PushNotificationNotSupported
  | UnsupportedOperation.

Record A2AError : Type := mkA2AError {
  code : ErrorCode;
  e_message : string;
  e_data : option JSON;
  e_taskId : option string
}.

Definition internalError (msg : string) : A2AError :=
  {| code := InternalError; e_message := msg; e_data := None; e_taskId := None |}.

Definition taskNotFound (taskId : string) : A2AError :=
  {| code := TaskNotFound; e_message := "Task not found: " ++ taskId;
     e_data := None; e_taskId := Some taskId |}.

(** The id of a JSON-RPC request that is not [null]. *)
Inductive RequestId : Type :=
  | IdString (s : string)
  | IdNumber (n : Z).

(** Whatever a [throw] can carry: an [A2AError], another [Error] with its
    message, a value that is not an [Error], kept as [String(value)], or
    the response object that [normalizeError(cause, reqId, taskId)] built,
    which [taskSend] throws. *)
Inductive Exn : Type :=
  | A2A (e : A2AError)
  | JsError (msg : string)
  | NotAnError (shown : string)
  | Normalized (cause : Exn) (reqId : option RequestId) (taskId : string).

(** [error instanceof Error ? error.message : String(error)]; the response
    object is a plain object. *)
Definition error_text (e : Exn) : string :=
  match e with
  | A2A a => e_message a
  | JsError msg => msg
  | NotAnError shown => shown
  | Normalized _ _ _ => "[object Object]"
  end.

Definition createTaskFailureStatusUpdate (error : Exn) : StatusUpdate :=
  {| u_state := failed;
     u_message :=
       Some (Value {| role := agent;
                      m_parts := [TextPart ("Handler failed: " ++ error_text error)];
                      m_metadata := None |});
     u_timestamp := None |}.

(** ** jsonrpc.ts *)

Record JSONRPCResponse (T : Type) : Type := mkResponse {
  r_jsonrpc : string;
  r_id : RequestId;
  r_result : T
}.
Arguments mkResponse {T}.
Arguments r_jsonrpc {T}.
Arguments r_id {T}.
Arguments r_result {T}.

(** [None] is a [null] id; the function throws on it. *)
Definition createSuccessResponse {T : Type} (rid : option RequestId) (result : T)
  : Exn + JSONRPCResponse T :=
  match rid with
  | None => inl (A2A (internalError "Cannot create a success response with a null ID"))
  | Some i => inr {| r_jsonrpc := "2.0"; r_id := i; r_result := result |}
  end.

(** [typeof v]; [None] is [undefined]. *)
Definition typeof (v : option JSON) : string :=
  match v with
  | None => "undefined"
  | Some JNull => "object"
  | Some (JBool _) => "boolean"
  | Some (JNumber _) => "number"
  | Some (JString _) => "string"
  | Some (JArray _) => "object"
  | Some (JObject _) => "object"
  end.

(** [body.k] for one of the keys the validator reads, on a value that is
    already known to be an object and not [null]: an array has none of
    these four keys. *)
Definition prop (body : JSON) (k : string) : option JSON :=
  match body with
  | JObject members => obj_get k members
  | _ => None
  end.

Definition is_null (v : option JSON) : bool :=
  match v with Some JNull => true | _ => false end.

Definition is_undefined (v : option JSON) : bool :=
  match v with None => true | _ => false end.

Definition isArray (v : option JSON) : bool :=
  match v with Some (JArray _) => true | _ => false end.

(** [v === s] for a string literal [s] *)
Definition is_string (s : string) (v : option JSON) : bool :=
  match v with Some (JString s') => String.eqb s' s | _ => false end.

Definition isValidJsonRpcRequest (body : JSON) : bool :=
  String.eqb (typeof (Some body)) "object" &&
  negb (is_null (Some body)) &&
  is_string "2.0" (prop body "jsonrpc") &&
  String.eqb (typeof (prop body "method")) "string" &&
  (is_null (prop body "id")
   || String.eqb (typeof (prop body "id")) "string"
   || String.eqb (typeof (prop body "id")) "number") &&
  (is_undefined (prop body "params")
   || String.eqb (typeof (prop body "params")) "object"
   || isArray (prop body "params")).

(** ** store.ts: the storage interfaces

    [load] and [save] are calls to an outside service: either can throw.
    A failed [save] leaves the store as it was. *)
Class TaskStore (S : Type) : Type := {
  load : S -> string -> Exn + option TaskAndHistory;
  save : S -> TaskAndHistory -> Exn + S
}.

(** A store whose writes always go through: [put] is what a write does. *)
Class ReliableStore (S : Type) `{TaskStore S} : Type := {
  put : S -> TaskAndHistory -> S;
  save_put : forall s d, save s d = inr (put s d);
  load_put : forall s d, load (put s d) (id (task d)) = inr (Some d)
}.

(** An in-memory store keyed by task id, as [redis.set(data.task.id, ...)]
    and [redis.get(taskId)] behave while the service is up. *)
#[export] Instance MemStore : TaskStore (gmap string TaskAndHistory) := {
  load s taskId := inr (s !! taskId);
  save s d := inr (<[id (task d) := d]> s)
}.

(** The same contents behind a service that refuses every write. *)
Record ReadOnlyStore : Type := mkReadOnly { contents : gmap string TaskAndHistory }.

#[export] Instance ReadOnly_TaskStore : TaskStore ReadOnlyStore := {
  load s taskId := inr (contents s !! taskId);
  save s d := inl (JsError "store unavailable")
}.

(** ** Effects

    The server methods read the clock, call the store, change the set of
    cancellation flags, write to an event stream, and throw.  A computation
    is a function of the state of these; it ends by returning or by
    throwing, and the state it leaves is kept in both cases. *)

Inductive Outcome (A : Type) : Type :=
  | Returned (a : A)
  | Threw (e : Exn).
Arguments Returned {A} a.
Arguments Threw {A} e.

Definition Eff (St A : Type) : Type := St -> Outcome A * St.

#[export] Instance Eff_ret (St : Type) : MRet (Eff St) :=
  fun A a s => (Returned a, s).

#[export] Instance Eff_bind (St : Type) : MBind (Eff St) :=
  fun A B f m s =>
    match m s with
    | (Returned a, s') => f a s'
    | (Threw e, s') => (Threw e, s')
    end.

Definition throw {St A : Type} (e : Exn) : Eff St A :=
  fun s => (Threw e, s).

(** [try { body } catch (error) { handler }] *)
Definition try_catch {St A : Type} (body : Eff St A) (handler : Exn -> Eff St A)
  : Eff St A :=
  fun s =>
    match body s with
    | (Returned a, s') => (Returned a, s')
    | (Threw e, s') => handler e s'
    end.

(** [try { body } finally { cleanup }] *)
Definition try_finally {St A : Type} (body : Eff St A) (cleanup : Eff St unit)
  : Eff St A :=
  fun s =>
    match body s with
    | (r, s') =>
        match cleanup s' with
        | (Returned _, s'') => (r, s'')
        | (Threw e, s'') => (Threw e, s'')
        end
    end.

(** A value or a throw computed without effects. *)
Definition of_sum {St A : Type} (r : Exn + A) : Eff St A :=
  match r with
  | inl e => throw e
  | inr a => mret a
  end.

Section Server.

Context {S : Type} `{TaskStore S}.

(** [getCurrentTimestamp()] of utils.ts reads the wall clock; [clock n] is
    what the [n]-th reading gives. *)
Variable clock : nat -> Timestamp.

(** What the server acts on. *)
Record World : Type := mkWorld {
  taskStore : S;
  activeCancellations : gset string;
  ticks : nat;                                   (* clock readings so far *)
  saves : list TaskAndHistory;                    (* every [taskStore.save] call *)
  sent : list (JSONRPCResponse (TaskStatusUpdateEvent + TaskArtifactUpdateEvent));
                                                  (* every event given to [writeSSE] *)
  pending : list (JSONRPCResponse (TaskStatusUpdateEvent + TaskArtifactUpdateEvent));
                                                  (* writes started and not yet run *)
  written : list (JSONRPCResponse (TaskStatusUpdateEvent + TaskArtifactUpdateEvent));
                                                  (* events that reached the stream *)
  closed : bool                                   (* [stream.closed] *)
}.

Definition getCurrentTimestamp : Eff World Timestamp :=
  fun w =>
    (Returned (clock (ticks w)),
     {| taskStore := taskStore w; activeCancellations := activeCancellations w;
        ticks := Datatypes.S (ticks w); saves := saves w; sent := sent w;
        pending := pending w; written := written w; closed := closed w |}).

Definition taskStore_load (taskId : string) : Eff World (option TaskAndHistory) :=
  fun w => of_sum (load (taskStore w) taskId) w.

Definition taskStore_save (data : TaskAndHistory) : Eff World unit :=
  fun w =>
    match save (taskStore w) data with
    | inr s' =>
        (Returned tt,
         {| taskStore := s'; activeCancellations := activeCancellations w;
            ticks := ticks w; saves := saves w ++ [data]; sent := sent w;
            pending := pending w; written := written w; closed := closed w |})
    | inl e =>
        (Threw e,
         {| taskStore := taskStore w; activeCancellations := activeCancellations w;
            ticks := ticks w; saves := saves w ++ [data]; sent := sent w;
            pending := pending w; written := written w; closed := closed w |})
    end.

Definition set_cancellations (c : gset string) (w : World) : World :=
  {| taskStore := taskStore w; activeCancellations := c; ticks := ticks w;
     saves := saves w; sent := sent w; pending := pending w; written := written w;
     closed := closed w |}.

Definition activeCancellations_add (taskId : string) : Eff World unit :=
  fun w => (Returned tt, set_cancellations ({[taskId]} ∪ activeCancellations w) w).

Definition activeCancellations_delete (taskId : string) : Eff World unit :=
  fun w => (Returned tt, set_cancellations (activeCancellations w ∖ {[taskId]}) w).

Definition activeCancellations_has (taskId : string) (w : World) : bool :=
  bool_decide (taskId ∈ activeCancellations w).

(** [stream.writeSSE({ data: JSON.stringify(eventData) })], not awaited.
    [writeSSE] is an async method of the stream: the call starts the write
    and returns a promise, which [sendEvent] returns and every call site
    drops.  The event is given to the stream, and it is on the stream only
    once the write has run, which the callback does not wait for. *)
Definition sendEvent
    (eventData : JSONRPCResponse (TaskStatusUpdateEvent + TaskArtifactUpdateEvent))
  : Eff World unit :=
  fun w =>
    (Returned tt,
     {| taskStore := taskStore w; activeCancellations := activeCancellations w;
        ticks := ticks w; saves := saves w; sent := sent w ++ [eventData];
        pending := pending w ++ [eventData]; written := written w;
        closed := closed w |}).

(** The writes in flight run: on an open stream the events are written in
    the order they were given, on a closed stream the writes fail, and a
    failed write is swallowed by the stream. *)
Definition settle (w : World) : World :=
  {| taskStore := taskStore w; activeCancellations := activeCancellations w;
     ticks := ticks w; saves := saves w; sent := sent w; pending := [];
     written := if closed w then written w else written w ++ pending w;
     closed := closed w |}.

(** [await] of a call to an outside service from the stream callback: while
    the callback waits for the answer, the writes in flight run. *)
Definition awaiting {A : Type} (m : Eff World A) : Eff World A :=
  fun w => match m w with (r, w') => (r, settle w') end.

(** [stream.close()]: the stream is closed at once, and a write that has
    not run by then finds it closed. *)
Definition set_closed (w : World) : World :=
  {| taskStore := taskStore w; activeCancellations := activeCancellations w;
     ticks := ticks w; saves := saves w; sent := sent w; pending := [];
     written := written w; closed := true |}.

(** [if (!stream.closed) await stream.close()] *)
Definition close_stream : Eff World unit :=
  fun w => if closed w then (Returned tt, w) else (Returned tt, set_closed w).

(** [applyUpdateToTaskAndHistory] with the clock it reads: the status
    branch is the only one that calls [getCurrentTimestamp()], so the clock
    moves on for a status update and stays for any other value. *)
Definition applyUpdate (current : TaskAndHistory) (update : TaskYieldUpdate)
  : Eff World TaskAndHistory :=
  fun w =>
    (Returned (applyUpdateToTaskAndHistory (clock (ticks w)) current update),
     if isTaskStatusUpdate update then snd (getCurrentTimestamp w) else w).

(** ** server.ts *)

(** The handler's view of the request (handler.ts without [taskStore]).
    [isCancelled] is a probe of the cancellation flags; the handler gets
    the answer that holds when it is resumed. *)
Record TaskContext : Type := mkTaskContext {
  ctx_task : Task;
  userMessage : Message;
  ctx_history : list Message;
  isCancelled : bool
}.

(** A handler is an async generator.  Each time it is resumed it ends,
    throws, or yields an update and waits; when resumed again it sees the
    context object as the server left it. *)
Inductive Generator : Type :=
  | Done
  | Raise (error : Exn)
  | Yield (yieldValue : TaskYieldUpdate) (next : TaskContext -> Generator).

Variable taskHandler : TaskContext -> Generator.

Record TaskSendParams : Type := mkTaskSendParams {
  p_id : string;
  p_message : Message;
  p_sessionId : option string;
  p_metadata : option Metadata
}.

(** [SendTaskRequest] and [SendTaskStreamingRequest]; a [null] request id
    is [None]. *)
Record SendTaskRequest : Type := mkSendTaskRequest {
  req_id : option RequestId;
  params : TaskSendParams
}.

Record CancelTaskRequest : Type := mkCancelTaskRequest {
  c_id : option RequestId;          (* [req.id ?? null] *)
  c_taskId : string                 (* [req.params.id] *)
}.

(** [validateTaskSendParams] of utils.ts is not among the sources: it
    returns, or throws the error given here. *)
Variable validateTaskSendParams : SendTaskRequest -> option Exn.

Definition finalStates : list TaskState := [completed; failed; canceled].

Definition loadOrCreateTaskAndHistory (taskId : string) (initialMessage : Message)
    (sessionId : option string) (metadata : option Metadata)
  : Eff World TaskAndHistory :=
  loaded ← taskStore_load taskId;
  data ← match loaded with
         | None =>
             now ← getCurrentTimestamp;
             mret {| task := {| id := taskId;
                                sessionId := sessionId;
                                status := {| state := submitted;
                                             timestamp := now;
                                             message := Null |};
                                artifacts := Some [];
                                metadata := Some (match metadata with
                                                  | Some m => m
                                                  | None => []
                                                  end) |};
                     history := [initialMessage] |}
         | Some data =>
             let data := {| task := task data;
                            history := history data ++ [initialMessage] |} in
             if includes finalStates (state (status (task data))) then
               applyUpdate data
                 (StatusValue {| u_state := submitted; u_message := Some Null;
                                 u_timestamp := None |})
             else if TaskState_eqb (state (status (task data))) input_required then
               applyUpdate data
                 (StatusValue {| u_state := working; u_message := None;
                                 u_timestamp := None |})
             else mret data
         end;
  _ ← taskStore_save data;
  mret {| task := task data; history := history data |}.

Definition createTaskContext (t : Task) (msg : Message) (hist : list Message)
    (w : World) : TaskContext :=
  {| ctx_task := t; userMessage := msg; ctx_history := hist;
     isCancelled := activeCancellations_has (id t) w |}.

(** *** taskSendSubscribe *)

(** The variables the stream callback closes over and assigns. *)
Record Locals : Type := mkLocals {
  currentData : TaskAndHistory;
  lastEventWasFinal : bool
}.

Definition lift {A : Type} (m : Eff World A) : Eff (Locals * World) A :=
  fun s => match m (snd s) with (r, w') => (r, (fst s, w')) end.

Definition get_currentData : Eff (Locals * World) TaskAndHistory :=
  fun s => (Returned (currentData (fst s)), s).

Definition set_currentData (d : TaskAndHistory) : Eff (Locals * World) unit :=
  fun s => (Returned tt,
            ({| currentData := d; lastEventWasFinal := lastEventWasFinal (fst s) |},
             snd s)).

Definition get_lastEventWasFinal : Eff (Locals * World) bool :=
  fun s => (Returned (lastEventWasFinal (fst s)), s).

Definition set_lastEventWasFinal (b : bool) : Eff (Locals * World) unit :=
  fun s => (Returned tt,
            ({| currentData := currentData (fst s); lastEventWasFinal := b |}, snd s)).

Definition terminalStates : list TaskState :=
  [completed; failed; canceled; input_required].

(** The predicate of [artifacts.find] in the artifact branch. *)
Definition is_updated_artifact (yieldValue a : Artifact) : bool :=
  match index a, index yieldValue with
  | Some i, Some j => i =? j
  | _, _ => false
  end
  || (truthy (name a) &&
      match name a, name yieldValue with
      | Some x, Some y => String.eqb x y
      | _, _ => false
      end).

(** [currentData.task.artifacts?.find(...) ?? yieldValue] *)
Definition updated_artifact (d : TaskAndHistory) (yieldValue : Artifact) : Artifact :=
  match
    match artifacts (task d) with
    | Some arts => List.find (is_updated_artifact yieldValue) arts
    | None => None
    end
  with
  | Some found => found
  | None => yieldValue
  end.

(** [{ state: 'completed' }] *)
Definition completedUpdate : StatusUpdate :=
  {| u_state := completed; u_message := None; u_timestamp := None |}.

Section Stream.

Variable req : SendTaskRequest.
Variable context : TaskContext.          (* as [createTaskContext] built it *)

Let taskId : string := p_id (params req).

(** The context object when the generator is resumed:
    [context.task = currentData.task] has been done, the rest is as
    created, and the probe reads the flags as they are now. *)
Definition resumed_context (s : Locals * World) : TaskContext :=
  {| ctx_task := task (currentData (fst s));
     userMessage := userMessage context;
     ctx_history := ctx_history context;
     isCancelled := activeCancellations_has (id (ctx_task context)) (snd s) |}.

(** [for await (const yieldValue of generator) { ... }].  Each turn waits
    for the store before it gives its event to the stream, so the event of
    one turn has been written by the time the next is given; leaving the
    loop on [break] waits for nothing the handler does, a handler of this
    model having no clean-up to run when it is not resumed. *)
Fixpoint drain (generator : Generator) : Eff (Locals * World) unit :=
  match generator with
  | Done => mret tt
  | Raise error => throw error
  | Yield yieldValue next =>
      current ← get_currentData;
      updated ← lift (applyUpdate current yieldValue);
      _ ← set_currentData updated;
      _ ← lift (awaiting (taskStore_save updated));
      match yieldValue with
      | StatusValue _ =>                        (* isTaskStatusUpdate(yieldValue) *)
          let isFinal := includes terminalStates (state (status (task updated))) in
          let event := createTaskStatusEvent taskId (status (task updated)) isFinal in
          (response ← of_sum (createSuccessResponse (req_id req) (inl event));
           _ ← lift (sendEvent response);
           _ ← set_lastEventWasFinal isFinal;
           if isFinal then mret tt
           else ((fun s => drain (next (resumed_context s)) s)
                 : Eff (Locals * World) unit))
          : Eff (Locals * World) unit
      | ArtifactValue a =>                      (* isArtifactUpdate(yieldValue) *)
          let updatedArtifact := updated_artifact updated a in
          let event := createTaskArtifactEvent taskId updatedArtifact false in
          (response ← of_sum (createSuccessResponse (req_id req) (inr event));
           _ ← lift (sendEvent response);
           _ ← set_lastEventWasFinal false;
           ((fun s => drain (next (resumed_context s)) s)
            : Eff (Locals * World) unit))
          : Eff (Locals * World) unit
      | OtherValue _ =>                         (* unknown update type: continue *)
          fun s => drain (next (resumed_context s)) s
      end
  end.

(** What follows the loop inside the [try]. *)
Definition finalize : Eff (Locals * World) unit :=
  wasFinal ← get_lastEventWasFinal;
  if negb wasFinal then
    current ← get_currentData;
    _ ← (if negb (includes terminalStates (state (status (task current)))) then
           updated ← lift (applyUpdate current (StatusValue completedUpdate));
           _ ← set_currentData updated;
           lift (awaiting (taskStore_save updated))
         else mret tt);
    current ← get_currentData;
    let finalEvent := createTaskStatusEvent taskId (status (task current)) true in
    response ← of_sum (createSuccessResponse (req_id req) (inl finalEvent));
    lift (sendEvent response)
  else mret tt.

(** The [catch (error)] block. *)
Definition on_error (error : Exn) : Eff (Locals * World) unit :=
  current ← get_currentData;
  updated ← lift (applyUpdate current (StatusValue (createTaskFailureStatusUpdate error)));
  _ ← set_currentData updated;
  _ ← try_catch (lift (awaiting (taskStore_save updated))) (fun _ => mret tt);
  let errorEvent := createTaskStatusEvent taskId (status (task updated)) true in
  response ← of_sum (createSuccessResponse (req_id req) (inl errorEvent));
  lift (sendEvent response).

(** The callback given to [streamSSE].  Its [finally] closes the stream
    right after the last event has been given to it. *)
Definition stream_callback (generator : Generator) : Eff (Locals * World) unit :=
  try_finally
    (try_catch (_ ← drain generator; finalize) on_error)
    (lift close_stream).

End Stream.

(** [streamSSE] opens a stream and runs the callback on it; what the
    callback throws ends the stream and does not reach the caller, who is
    given the outcome here as a value. *)
Definition taskSendSubscribe (req : SendTaskRequest) : Eff World (Outcome unit) :=
  _ ← match validateTaskSendParams req with
      | Some e => throw e
      | None => mret tt
      end;
  data ← loadOrCreateTaskAndHistory (p_id (params req)) (p_message (params req))
           (p_sessionId (params req)) (p_metadata (params req));
  ((fun w =>
      let context :=
        createTaskContext (task data) (p_message (params req)) (history data) w in
      let generator := taskHandler context in
      let opened :=
        {| taskStore := taskStore w; activeCancellations := activeCancellations w;
           ticks := ticks w; saves := saves w; sent := []; pending := [];
           written := []; closed := false |} in
      match stream_callback req context generator
              ({| currentData := data; lastEventWasFinal := false |}, opened) with
      | (r, (_, w')) => (Returned r, w')
      end)
   : Eff World (Outcome unit)).

(** *** taskCancel *)

Definition cancelUpdate : StatusUpdate :=
  {| u_state := canceled;
     u_message := Some (Value {| role := agent;
                                 m_parts := [TextPart "Task canceled by request."];
                                 m_metadata := None |});
     u_timestamp := None |}.

Definition taskCancel (req : CancelTaskRequest)
  : Eff World (JSONRPCResponse (Task + TaskAndHistory)) :=
  let taskId := c_taskId req in
  loaded ← taskStore_load taskId;
  match loaded with
  | None => throw (A2A (taskNotFound taskId))
  | Some data =>
      if includes finalStates (state (status (task data))) then
        of_sum (createSuccessResponse (c_id req) (inl (task data)))
      else
        _ ← activeCancellations_add taskId;
        data ← applyUpdate data (StatusValue cancelUpdate);
        _ ← taskStore_save data;
        _ ← activeCancellations_delete taskId;
        of_sum (createSuccessResponse (c_id req) (inr data))
  end.

End Server.

(** ** error.ts: normalizeError *)

Definition invalidRequest (msg : string) : A2AError :=
  {| code := InvalidRequest; e_message := msg; e_data := None; e_taskId := None |}.

Definition methodNotFound (method : string) : A2AError :=
  {| code := MethodNotFound; e_message := "Method not found: " ++ method;
     e_data := None; e_taskId := None |}.

Definition invalidParams (msg : string) : A2AError :=
  {| code := InvalidParams; e_message := msg; e_data := None; e_taskId := None |}.

(** [A2AError.internalError(message, data)] with its data argument. *)
Definition internalErrorWith (msg : string) (data : option JSON) : A2AError :=
  {| code := InternalError; e_message := msg; e_data := data; e_taskId := None |}.

(** The [error: any] that [normalizeError] is given and that a [catch] in
    the router binds: an [A2AError], another [Error] with its message and
    stack, or any other value ([None] is [undefined]). *)
Inductive Throwable : Type :=
  | ThrownA2A (e : A2AError)
  | ThrownError (msg : string) (stack : string)
  | ThrownValue (v : option JSON).

(** [schema.JSONRPCError]: [data] is left out when it is [undefined]. *)
Record JSONRPCError : Type := mkJSONRPCError {
  je_code : ErrorCode;
  je_message : string;
  je_data : option JSON
}.

Definition toJSONRPCError (e : A2AError) : JSONRPCError :=
  {| je_code := code e; je_message := e_message e; je_data := e_data e |}.

Record JSONRPCErrorResponse : Type := mkErrorResponse {
  er_jsonrpc : string;
  er_id : option RequestId;
  er_error : JSONRPCError
}.

Definition createErrorResponse (rid : option RequestId) (error : JSONRPCError)
  : JSONRPCErrorResponse :=
  {| er_jsonrpc := "2.0"; er_id := rid; er_error := error |}.

(** The [a2aError] of [normalizeError] once the task id has been filled in. *)
Definition normalizedError (error : Throwable) (taskId : option string) : A2AError :=
  let a2aError :=
    match error with
    | ThrownA2A e => e
    | ThrownError msg stack =>
        internalErrorWith msg (Some (JObject [("stack", JString stack)]))
    | ThrownValue v => internalErrorWith "An unknown error occurred." v
    end in
  if truthy taskId && negb (truthy (e_taskId a2aError)) then
    {| code := code a2aError; e_message := e_message a2aError;
       e_data := e_data a2aError; e_taskId := taskId |}
  else a2aError.

Definition normalizeError (error : Throwable) (reqId : option RequestId)
    (taskId : option string) : JSONRPCErrorResponse :=
  createErrorResponse reqId (toJSONRPCError (normalizedError error taskId)).

(** ** server.ts: the JSON-RPC route *)

Inductive Method : Type := tasks_send | tasks_sendSubscribe | tasks_get | tasks_cancel.

(** The [switch (body.method)]; [None] is the [default] branch. *)
Definition route (method : string) : option Method :=
  if String.eqb method "tasks/send" then Some tasks_send
  else if String.eqb method "tasks/sendSubscribe" then Some tasks_sendSubscribe
  else if String.eqb method "tasks/get" then Some tasks_get
  else if String.eqb method "tasks/cancel" then Some tasks_cancel
  else None.

(** [body.id ?? null] as a request id, for an id that passed the validator. *)
Definition request_id_of (v : option JSON) : option RequestId :=
  match v with
  | Some (JString s) => Some (IdString s)
  | Some (JNumber n) => Some (IdNumber n)
  | _ => None
  end.

(** [typeof body.params?.id === 'string' ? body.params.id : undefined] *)
Definition params_task_id (body : JSON) : option string :=
  match prop body "params" with
  | Some params =>
      match prop params "id" with
      | Some (JString s) => Some s
      | _ => None
      end
  | None => None
  end.

(** [`${v}`] in a template literal, for a parsed value: [false] is a
    [TypeError].  An object with a member named [toString] has lost the
    method it would be converted with, no JSON value being callable; an
    array is converted by joining its elements, each converted in turn,
    [null] giving the empty string; any other value has a string form. *)
Fixpoint converts_to_string (v : JSON) : bool :=
  match v with
  | JObject members =>
      match obj_get "toString" members with
      | Some _ => false
      | None => true
      end
  | JArray items =>
      (fix all (l : list JSON) : bool :=
         match l with
         | [] => true
         | x :: rest => converts_to_string x && all rest
         end) items
  | _ => true
  end.

(** [undefined] is converted to ["undefined"]. *)
Definition converts (v : option JSON) : bool :=
  match v with
  | Some v => converts_to_string v
  | None => true
  end.

(** [(body.params)?.id], whatever it is *)
Definition params_id (body : JSON) : option JSON :=
  match prop body "params" with
  | Some params => prop params "id"
  | None => None
  end.

(** The message of the first [logger.debug], inside the [try] that reads
    the body, is a template literal of [requestId], [body.method] and
    [taskId], evaluated before the envelope is validated. *)
Definition request_logged (body : JSON) : bool :=
  converts (prop body "id") && converts (prop body "method") && converts (params_id body).

(** [error.message] in the [catch] of the route: [None] when reading the
    property throws (the caught value is [null] or [undefined]). *)
Definition message_of (error : Throwable) : option Throwable :=
  match error with
  | ThrownA2A e => Some (ThrownValue (Some (JString (e_message e))))
  | ThrownError msg _ => Some (ThrownValue (Some (JString msg)))
  | ThrownValue None => None
  | ThrownValue (Some JNull) => None
  | ThrownValue (Some (JObject members)) => Some (ThrownValue (obj_get "message" members))
  | ThrownValue (Some _) => Some (ThrownValue None)
  end.

Section Route.

(** The four operations behind the route, as the route sees them: run on
    the parsed body (cast, not checked, to the request type), they change
    the state of the server and end with a response or with a throw. *)
Variable W : Type.
Variable R : Type.

Inductive Delegated : Type :=
  | OperationReturned (response : R)
  | OperationThrew (error : Throwable).

Variable operation : Method -> JSON -> W -> Delegated * W.

Inductive RouteResult : Type :=
  | BadRequest (msg : string)                 (* [HTTPException(400, ...)] thrown *)
  | Rejected (e : A2AError)                   (* thrown before the [try] of the switch *)
  | Passed (response : R)                     (* what the operation returned *)
  | Answered (response : JSONRPCErrorResponse)  (* [c.json(normalizeError(...), 200)] *)
  | CatchThrew                                (* a [TypeError] out of the [catch] *)
  | Escaped (error : Throwable).              (* a rejection the [catch] does not see *)

(** Three of the four cases [return await] the operation; the case of
    [tasks/sendSubscribe] returns its promise without [await], so that a
    rejection of it is not caught by the [catch] of the route. *)
Definition awaited (m : Method) : bool :=
  match m with
  | tasks_sendSubscribe => false
  | _ => true
  end.

(** The [catch (error)] of the route.  [error.taskId = taskId] is set on an
    [A2AError] without one; the response is built from [error.message]
    alone. *)
Definition route_catch (requestId : option RequestId) (taskId : option string)
    (error : Throwable) (w : W) : RouteResult * W :=
  match message_of error with
  | Some message => (Answered (normalizeError message requestId taskId), w)
  | None => (CatchThrew, w)
  end.

(** The handler of [app.post(basePath)]; [None] is a body [c.req.json()]
    cannot parse.  Whatever throws in the first [try], the parser, the read
    of [body.id] on [null] or the template literal of the log message,
    becomes an HTTP 400. *)
Definition jsonrpc_route (parsed : option JSON) (w : W) : RouteResult * W :=
  match parsed with
  | None => (BadRequest "Invalid JSON-RPC request", w)
  | Some JNull => (BadRequest "Invalid JSON-RPC request", w)   (* [body.id] throws *)
  | Some body =>
      if negb (request_logged body) then
        (BadRequest "Invalid JSON-RPC request", w)
      else if negb (isValidJsonRpcRequest body) then
        (Rejected (invalidRequest "Invalid JSON-RPC request structure"), w)
      else
        let taskId := params_task_id body in
        let requestId := request_id_of (prop body "id") in
        match prop body "method" with
        | Some (JString method) =>
            match route method with
            | Some m =>
                match operation m body w with
                | (OperationReturned response, w') => (Passed response, w')
                | (OperationThrew error, w') =>
                    if awaited m then route_catch requestId taskId error w'
                    else (Escaped error, w')
                end
            | None =>
                route_catch requestId taskId (ThrownA2A (methodNotFound method)) w
            end
        | _ =>                       (* not reached: the validator wants a string *)
            route_catch requestId taskId (ThrownValue None) w
        end
  end.

End Route.

Arguments OperationReturned {R} response.
Arguments OperationThrew {R} error.
Arguments BadRequest {R} msg.
Arguments Rejected {R} e.
Arguments Passed {R} response.
Arguments Answered {R} response.
Arguments CatchThrew {R}.
Arguments Escaped {R} error.

(** ** server.ts: taskSend and taskGet *)

(** [!req.id]: [null], the empty string and [0] are falsy. *)
Definition id_truthy (rid : option RequestId) : bool :=
  match rid with
  | Some (IdString s) => negb (String.eqb s "")
  | Some (IdNumber n) => negb (n =? 0)
  | None => false
  end.

(** [GetTaskRequest]; a missing [params.id] is [None]. *)
Record GetTaskRequest : Type := mkGetTaskRequest {
  g_id : option RequestId;
  g_taskId : option string
}.

Section Operations.

Context {S : Type} `{TaskStore S}.
Variable clock : nat -> Timestamp.
Variable taskHandler : TaskContext -> Generator.
Variable validateTaskSendParams : SendTaskRequest -> option Exn.

Definition taskGet (req : GetTaskRequest)
  : Eff World (JSONRPCResponse TaskAndHistory) :=
  if negb (truthy (g_taskId req)) then throw (A2A (invalidParams "Missing task ID."))
  else
    let taskId := match g_taskId req with Some t => t | None => "" end in
    loaded ← taskStore_load taskId;
    match loaded with
    | None => throw (A2A (taskNotFound taskId))
    | Some data =>
        if negb (id_truthy (g_id req)) then
          throw (A2A (invalidParams "Missing request ID."))
        else of_sum (createSuccessResponse (g_id req) data)
    end.

Section Send.

Variable context : TaskContext.          (* as [createTaskContext] built it *)

(** The context object when the generator is resumed by [taskSend]; the
    state is [currentData] beside the state of the server. *)
Definition send_context (s : TaskAndHistory * @World S) : TaskContext :=
  {| ctx_task := task (fst s);
     userMessage := userMessage context;
     ctx_history := ctx_history context;
     isCancelled := activeCancellations_has (id (ctx_task context)) (snd s) |}.

(** [for await (const yieldValue of generator) { ... }] of [taskSend] *)
Fixpoint send_loop (generator : Generator) : Eff (TaskAndHistory * World) unit :=
  match generator with
  | Done => mret tt
  | Raise error => throw error
  | Yield yieldValue next =>
      fun s =>
        match applyUpdate clock (fst s) yieldValue (snd s) with
        | (Threw e, w1) => (Threw e, (fst s, w1))
        | (Returned updated, w1) =>
            match taskStore_save updated w1 with
            | (Threw e, w2) => (Threw e, (updated, w2))
            | (Returned _, w2) =>
                send_loop (next (send_context (updated, w2))) (updated, w2)
            end
        end
  end.

(** The [catch (handlerError)] block of [taskSend]; it ends in
    [throw normalizeError(handlerError, req.id, taskId)]. *)
Definition send_failed (req : SendTaskRequest) (handlerError : Exn)
  : Eff (TaskAndHistory * World) unit :=
  fun s =>
    match applyUpdate clock (fst s)
            (StatusValue (createTaskFailureStatusUpdate handlerError))
            (snd s) with
    | (Threw e, w1) => (Threw e, (fst s, w1))
    | (Returned updated, w1) =>
        match taskStore_save updated w1 with
        | (_, w2) =>
            (Threw (Normalized handlerError (req_id req) (p_id (params req))),
             (updated, w2))
        end
    end.

End Send.

(** [None] is the [return] without a response, for a [null] request id. *)
Definition taskSend (req : SendTaskRequest)
  : Eff World (option (JSONRPCResponse TaskAndHistory)) :=
  _ ← match validateTaskSendParams req with
      | Some e => throw e
      | None => mret tt
      end;
  data ← loadOrCreateTaskAndHistory clock (p_id (params req)) (p_message (params req))
           (p_sessionId (params req)) (p_metadata (params req));
  ((fun w =>
      let context :=
        createTaskContext (task data) (p_message (params req)) (history data) w in
      let generator := taskHandler context in
      match try_catch (send_loop context generator) (send_failed req) (data, w) with
      | (Threw e, (_, w')) => (Threw e, w')
      | (Returned _, (currentData, w')) =>
          match req_id req with
          | None => (Returned None, w')
          | Some _ =>
              match createSuccessResponse (req_id req) currentData with
              | inl e => (Threw e, w')
              | inr response => (Returned (Some response), w')
              end
          end
      end)
   : Eff World (option (JSONRPCResponse TaskAndHistory))).

End Operations.

(** ** index.ts: the handler the server is started with *)

Definition hello_message : Message :=
  {| role := agent; m_parts := [TextPart "Hello, world!"]; m_metadata := None |}.

(** It yields a [working] status with a greeting, then [{ state:
    'completed' }], and looks at nothing in its context. *)
Definition taskHandler_index (_ : TaskContext) : Generator :=
  Yield (StatusValue {| u_state := working; u_message := Some (Value hello_message);
                        u_timestamp := None |})
    (fun _ => Yield (StatusValue {| u_state := completed; u_message := None;
                                    u_timestamp := None |})
                (fun _ => Done)).

(** * Terms of the statements

    Predicates and shorthands the properties below are stated with, and
    sample values for their instances. *)

(** Ascending by index, an absent index counting as 0. *)
Definition index_le (a b : Artifact) : Prop := index_or_0 a <= index_or_0 b.

Definition has_index (a : Artifact) : bool :=
  match index a with Some _ => true | None => false end.

Definition no_artifacts (d : TaskAndHistory) : Prop :=
  artifacts (task d) = Some [] \/ artifacts (task d) = None.

Definition artifacts_or_empty (d : TaskAndHistory) : list Artifact :=
  match artifacts (task d) with Some l => l | None => [] end.

(** The condition in the words of the specification: version tag ["2.0"], a
    non-empty string as method, a string, number or [null] as id, and
    params, when present, an object or an array. *)
Definition envelope_condition_as_stated (body : JSON) : Prop :=
  prop body "jsonrpc" = Some (JString "2.0") /\
  (exists m, prop body "method" = Some (JString m) /\ m <> "") /\
  (prop body "id" = Some JNull \/
   (exists s, prop body "id" = Some (JString s)) \/
   (exists n, prop body "id" = Some (JNumber n))) /\
  (prop body "params" = None \/
   (exists o, prop body "params" = Some (JObject o)) \/
   (exists l, prop body "params" = Some (JArray l))).

(** The condition the validator decides: the method may be the empty
    string, and [null] passes for params. *)
Definition envelope_condition (body : JSON) : Prop :=
  (exists members, body = JObject members) /\
  prop body "jsonrpc" = Some (JString "2.0") /\
  (exists m, prop body "method" = Some (JString m)) /\
  (prop body "id" = Some JNull \/
   (exists s, prop body "id" = Some (JString s)) \/
   (exists n, prop body "id" = Some (JNumber n))) /\
  (prop body "params" = None \/
   prop body "params" = Some JNull \/
   (exists o, prop body "params" = Some (JObject o)) \/
   (exists l, prop body "params" = Some (JArray l))).

Definition is_closed (s : TaskState) : Prop :=
  s = completed \/ s = failed \/ s = canceled.

Definition StreamResponse : Type :=
  JSONRPCResponse (TaskStatusUpdateEvent + TaskArtifactUpdateEvent).

(** The [final] flag of an event on the stream. *)
Definition response_final (r : StreamResponse) : bool :=
  match r_result r with
  | inl e => se_final e
  | inr e => ae_final e
  end.

Definition is_stream_terminal (s : TaskState) : Prop :=
  s = completed \/ s = failed \/ s = canceled \/ s = input_required.

Section StreamTerms.

Context {S : Type} `{ReliableStore S}.
Variable clock : nat -> Timestamp.
Variable req : SendTaskRequest.
Variable rid : RequestId.

(** The state of the server after one update has been applied and saved
    from the stream callback, which lets the writes in flight run, and its
    events have been given to the stream. *)
Definition after_update (w : World) (d : TaskAndHistory) (t : nat)
    (events : list StreamResponse) : World :=
  {| taskStore := put (taskStore w) d; activeCancellations := activeCancellations w;
     ticks := t; saves := saves w ++ [d];
     sent := sent w ++ events; pending := events;
     written := if closed w then written w else written w ++ pending w;
     closed := closed w |}.

Definition status_response (st : TaskStatus) (final : bool) : StreamResponse :=
  {| r_jsonrpc := "2.0"; r_id := rid;
     r_result := inl (createTaskStatusEvent (p_id (params req)) st final) |}.

Definition artifact_response (a : Artifact) : StreamResponse :=
  {| r_jsonrpc := "2.0"; r_id := rid;
     r_result := inr (createTaskArtifactEvent (p_id (params req)) a false) |}.

(** The snapshot and the state of the server after the forced
    finalization, for a loop that ended in [(l, w)]. *)
Definition forced_data (l : Locals) (w : @World S) : TaskAndHistory :=
  if includes terminalStates (state (status (task (currentData l)))) then currentData l
  else applyUpdateToTaskAndHistory (clock (ticks w)) (currentData l)
         (StatusValue completedUpdate).

Definition forced_world (l : Locals) (w : @World S) : World :=
  let final_event := status_response (status (task (forced_data l w))) true in
  if includes terminalStates (state (status (task (currentData l)))) then
    {| taskStore := taskStore w; activeCancellations := activeCancellations w;
       ticks := ticks w; saves := saves w; sent := sent w ++ [final_event];
       pending := pending w ++ [final_event]; written := written w;
       closed := closed w |}
  else after_update w (forced_data l w) (Datatypes.S (ticks w)) [final_event].

Definition not_final (e : StreamResponse) : Prop := response_final e = false.

(** What one run of the loop on an open stream does to it.  Either no final
    event was given to the stream: the events given are on the stream or in
    flight, in order, and a task that was not in a terminal state is not in
    one.  Or the loop returned on a final event: every event before it is on
    the stream, and the final event, a status event of the task as it
    stands, is in flight. *)
Inductive drained (s s' : Locals * @World S) (out : Outcome unit) : Prop :=
  | drained_open (events delivered : list StreamResponse) :
      sent (snd s') = sent (snd s) ++ events ->
      written (snd s') = written (snd s) ++ delivered ->
      delivered ++ pending (snd s') = pending (snd s) ++ events ->
      Forall not_final events ->
      lastEventWasFinal (fst s') = false ->
      (~ is_stream_terminal (state (status (task (currentData (fst s))))) ->
       ~ is_stream_terminal (state (status (task (currentData (fst s')))))) ->
      drained s s' out
  | drained_final (events : list StreamResponse) :
      sent (snd s') = sent (snd s) ++ events ++
        [status_response (status (task (currentData (fst s')))) true] ->
      written (snd s') = written (snd s) ++ pending (snd s) ++ events ->
      pending (snd s') = [status_response (status (task (currentData (fst s')))) true] ->
      Forall not_final events ->
      is_stream_terminal (state (status (task (currentData (fst s'))))) ->
      lastEventWasFinal (fst s') = true ->
      out = Returned tt ->
      drained s s' out.

End StreamTerms.

(** Sample values for the instances below. *)
Definition text_artifact (i : option Z) (n : option string) (t : string) : Artifact :=
  {| name := n; description := None; parts := [TextPart t]; index := i;
     append := None; lastChunk := None; a_metadata := None |}.

Definition agent_says (t : string) : Message :=
  {| role := agent; m_parts := [TextPart t]; m_metadata := None |}.

Definition user_says (t : string) : Message :=
  {| role := user; m_parts := [TextPart t]; m_metadata := None |}.

Definition sample_task (st : TaskState) (m : Nullable Message) : Task :=
  {| id := "t1"; sessionId := None;
     status := {| state := st; message := m; timestamp := "2025-01-01T00:00:00Z" |};
     artifacts := Some []; metadata := Some [] |}.

Definition sample_data (st : TaskState) (m : Nullable Message) (h : list Message)
  : TaskAndHistory :=
  {| task := sample_task st m; history := h |}.

Definition sample_clock (n : nat) : Timestamp :=
  String.append "2025-01-01T00:00:0" (String (Ascii.ascii_of_nat (48 + n)%nat) "Z").

Definition sample_world (d : TaskAndHistory) : World (S := gmap string TaskAndHistory) :=
  {| taskStore := {[ id (task d) := d ]}; activeCancellations := ∅; ticks := 0;
     saves := []; sent := []; pending := []; written := []; closed := false |}.

Definition cancel_request (rid : option RequestId) : CancelTaskRequest :=
  {| c_id := rid; c_taskId := "t1" |}.

Definition read_only_world (d : TaskAndHistory) : World (S := ReadOnlyStore) :=
  {| taskStore := {| contents := {[ id (task d) := d ]} |}; activeCancellations := ∅;
     ticks := 0; saves := []; sent := []; pending := []; written := [];
     closed := false |}.

(** A handler that yields [{ state: 'working' }] and ends. *)
Definition working_only_handler (_ : TaskContext) : Generator :=
  Yield (StatusValue {| u_state := working; u_message := None; u_timestamp := None |})
        (fun _ => Done).

Definition sample_request (rid : option RequestId) : SendTaskRequest :=
  {| req_id := rid;
     params := {| p_id := "t1"; p_message := user_says "hi";
                  p_sessionId := None; p_metadata := None |} |}.

Definition empty_world : World (S := gmap string TaskAndHistory) :=
  {| taskStore := ∅; activeCancellations := ∅; ticks := 0;
     saves := []; sent := []; pending := []; written := []; closed := false |}.

Definition sample_context : TaskContext :=
  createTaskContext (sample_task working Null) (user_says "hi") [user_says "hi"]
    (sample_world (sample_data working Null [user_says "hi"])).

Definition accept_all (_ : SendTaskRequest) : option Exn := None.

Definition saved_states {S : Type} (w : @World S) : list TaskState :=
  map (fun d => state (status (task d))) (saves w).

(** ** Terms of the further properties *)

(** The agent message of the cancel update. *)
Definition cancel_message : Message :=
  {| role := agent; m_parts := [TextPart "Task canceled by request."];
     m_metadata := None |}.

(** The agent message of [createTaskFailureStatusUpdate]. *)
Definition failure_message (error : Exn) : Message :=
  {| role := agent; m_parts := [TextPart ("Handler failed: " ++ error_text error)];
     m_metadata := None |}.

(** The store holds [currentData] under its task id. *)
Definition holds_current {S : Type} `{TaskStore S} (s : TaskAndHistory * @World S) : Prop :=
  load (taskStore (snd s)) (id (task (fst s))) = inr (Some (fst s)).



(** An operation that fails with [TaskNotFound], and an envelope for it. *)
Definition not_found_operation (_ : Method) (_ : JSON) (w : unit)
  : Delegated unit * unit :=
  (OperationThrew (ThrownA2A (taskNotFound "t1")), w).

Definition envelope (method : string) (rid : JSON) : JSON :=
  JObject [("jsonrpc", JString "2.0"); ("method", JString method); ("id", rid);
           ("params", JObject [("id", JString "t1")])].

(** * Properties *)

(** ** The in-memory store is reliable *)

Lemma MemStore_load_put (s : gmap string TaskAndHistory) (d : TaskAndHistory) :
  load (<[id (task d) := d]> s) (id (task d)) = inr (Some d).
Proof. simpl. now rewrite lookup_insert_eq. Qed.

#[export] Instance MemStore_reliable : ReliableStore (gmap string TaskAndHistory) := {
  put s d := <[id (task d) := d]> s;
  save_put s d := eq_refl;
  load_put := MemStore_load_put
}.

(** ** The update model: artifacts *)

Lemma insert_by_index_perm a l : Permutation (a :: l) (insert_by_index a l).
Proof.
  induction l as [|b rest IH]; simpl.
  - apply Permutation_refl.
  - destruct (index_or_0 a <=? index_or_0 b).
    + apply Permutation_refl.
    + eapply perm_trans; [apply perm_swap|]. now apply perm_skip.
Qed.

Lemma sort_by_index_perm l : Permutation l (sort_by_index l).
Proof.
  induction l as [|a rest IH]; simpl.
  - apply perm_nil.
  - eapply perm_trans; [|apply insert_by_index_perm]. now apply perm_skip.
Qed.

Lemma insert_by_index_Forall (P : Artifact -> Prop) a l :
  P a -> Forall P l -> Forall P (insert_by_index a l).
Proof.
  intros Ha Hl. induction Hl as [|b rest Hb Hrest IH]; simpl.
  - now constructor.
  - destruct (index_or_0 a <=? index_or_0 b); repeat constructor; assumption.
Qed.

Lemma insert_by_index_sorted a l :
  StronglySorted index_le l -> StronglySorted index_le (insert_by_index a l).
Proof.
  induction 1 as [|b rest Hsorted IH Hb]; simpl.
  - repeat constructor.
  - destruct (index_or_0 a <=? index_or_0 b) eqn:E.
    + apply Z.leb_le in E. constructor.
      * now constructor.
      * constructor; [exact E|].
        eapply Forall_impl; [exact Hb|]. unfold index_le. intros c Hc. lia.
    + apply Z.leb_gt in E. constructor; [exact IH|].
      apply insert_by_index_Forall; [unfold index_le; lia | exact Hb].
Qed.

Lemma sort_by_index_sorted l : StronglySorted index_le (sort_by_index l).
Proof.
  induction l as [|a rest IH]; simpl.
  - constructor.
  - now apply insert_by_index_sorted.
Qed.

(** When no slot is the target of the update, it is pushed and, if an index
    is present anywhere, the array is sorted. *)
Lemma applyArtifact_pushed (arts : list Artifact) (update : Artifact) :
  (forall i, index update = Some i -> i < 0 \/ Z.of_nat (length arts) <= i) ->
  (truthy (name update) = true -> findIndex (same_name (name update)) arts = None) ->
  applyArtifact arts update =
    if existsb has_index (arts ++ [update]) then sort_by_index (arts ++ [update])
    else arts ++ [update].
Proof.
  intros Hidx Hname. unfold applyArtifact.
  assert (Hout : (0 <=? match index update with Some i => i | None => -1 end)
                 && (match index update with Some i => i | None => -1 end
                     <? Z.of_nat (length arts)) = false).
  { destruct (index update) as [i|].
    - destruct (Hidx i eq_refl) as [Hneg|Hbig].
      + apply andb_false_iff. left. now apply Z.leb_gt.
      + apply andb_false_iff. right. now apply Z.ltb_ge.
    - reflexivity. }
  rewrite Hout.
  destruct (truthy (name update)) eqn:Ht.
  - rewrite (Hname eq_refl). reflexivity.
  - reflexivity.
Qed.

(** An artifact at offset [i] of the array is the target of an update that
    carries index [i], whatever index the stored artifact itself has. *)
Lemma applyArtifact_overwrite (arts : list Artifact) (update old : Artifact) (i : nat) :
  index update = Some (Z.of_nat i) ->
  arts !! i = Some old ->
  append update <> Some true ->
  applyArtifact arts update = <[i := update]> arts.
Proof.
  intros Hidx Hold Happ. unfold applyArtifact. rewrite Hidx.
  assert (Hlt : (i < length arts)%nat) by (eapply lookup_lt_Some; eassumption).
  replace (0 <=? Z.of_nat i) with true by (symmetry; apply Z.leb_le; lia).
  replace (Z.of_nat i <? Z.of_nat (length arts)) with true
    by (symmetry; apply Z.ltb_lt; lia).
  simpl. rewrite Nat2Z.id, Hold.
  destruct (append update) as [[|]|]; try reflexivity. now contradiction Happ.
Qed.

Lemma apply_artifact_artifacts now d a :
  artifacts (task (applyUpdateToTaskAndHistory now d (ArtifactValue a)))
  = Some (applyArtifact (artifacts_or_empty d) a).
Proof. reflexivity. Qed.

(** C1 (as amended).  On a task with no artifacts, an artifact update with
    index 2 followed by one with index 0 and no append flag leaves a list
    that holds the index-0 artifact alone: index 0 is within the bounds of
    the one-element array, so the second update overwrites the slot where
    the first artifact was put.  A second update whose index [j >= 1] is out
    of those bounds, and whose name does not match, is pushed, and the two
    artifacts end sorted ascending by index. *)
Theorem artifact_index_2_then_other (now1 now2 : Timestamp) (d : TaskAndHistory)
    (first second : Artifact) :
  no_artifacts d ->
  index first = Some 2 ->
  let result :=
    applyUpdateToTaskAndHistory now2
      (applyUpdateToTaskAndHistory now1 d (ArtifactValue first))
      (ArtifactValue second) in
  (index second = Some 0 -> append second <> Some true ->
   artifacts (task result) = Some [second]) /\
  (forall j, index second = Some j -> 1 <= j ->
   (truthy (name second) = true -> name second <> name first) ->
   artifacts (task result) = Some (if 2 <=? j then [first; second] else [second; first])).
Proof.
  intros Hempty H2 result. subst result.
  rewrite apply_artifact_artifacts.
  assert (Hfirst : artifacts_or_empty (applyUpdateToTaskAndHistory now1 d (ArtifactValue first))
                   = [first]).
  { unfold artifacts_or_empty at 1. rewrite apply_artifact_artifacts.
    replace (artifacts_or_empty d) with (@nil Artifact)
      by (unfold artifacts_or_empty; destruct Hempty as [-> | ->]; reflexivity).
    rewrite applyArtifact_pushed.
    - simpl. unfold has_index. now rewrite H2.
    - intros i Hi. rewrite H2 in Hi. injection Hi as <-. simpl. lia.
    - reflexivity. }
  rewrite Hfirst. split.
  - intros H0 Happ. f_equal.
    now rewrite (applyArtifact_overwrite [first] second first 0%nat).
  - intros j Hj Hge Hname. f_equal.
    rewrite applyArtifact_pushed.
    + simpl. unfold has_index. rewrite H2. simpl.
      unfold index_or_0. rewrite H2, Hj. now destruct (2 <=? j).
    + intros i Hi. rewrite Hj in Hi. injection Hi as <-. simpl. lia.
    + intros Ht. simpl. unfold same_name.
      destruct (name first) as [x|] eqn:Ex; [|reflexivity].
      destruct (name second) as [y|] eqn:Ey; [|reflexivity].
      destruct (String.eqb x y) eqn:Exy; [|reflexivity].
      apply String.eqb_eq in Exy. subst y. now contradiction (Hname Ht).
Qed.

Lemma artifact_index_2_then_other_witness :
  artifacts (task
    (applyUpdateToTaskAndHistory "n2"
       (applyUpdateToTaskAndHistory "n1" (sample_data working Null [])
          (ArtifactValue (text_artifact (Some 2) None "two")))
       (ArtifactValue (text_artifact (Some 0) None "zero"))))
  = Some [text_artifact (Some 0) None "zero"].
Proof.
  refine (proj1 (artifact_index_2_then_other "n1" "n2" (sample_data working Null [])
                   (text_artifact (Some 2) None "two")
                   (text_artifact (Some 0) None "zero") _ _) _ _).
  - left. reflexivity.
  - reflexivity.
  - reflexivity.
  - discriminate.
Defined.

(** C1 (as stated) fails: after the updates with index 2 and index 0 the
    list is not [index 0; index 2]; the artifact with index 2 is gone. *)
Lemma artifact_index_2_then_0_counterexample :
  let two := text_artifact (Some 2) None "two" in
  let zero := text_artifact (Some 0) None "zero" in
  let result :=
    applyUpdateToTaskAndHistory "n2"
      (applyUpdateToTaskAndHistory "n1" (sample_data working Null [])
         (ArtifactValue two))
      (ArtifactValue zero) in
  artifacts (task result) <> Some [zero; two] /\
  artifacts (task result) = Some [zero].
Proof. split; [discriminate | reflexivity]. Qed.

Lemma existsb_has_index_perm (l l' : list Artifact) :
  Permutation l l' -> existsb has_index l = existsb has_index l'.
Proof.
  induction 1 as [| x l l' _ IH | x y l | l l' l'' _ IH1 _ IH2]; simpl.
  - reflexivity.
  - now rewrite IH.
  - destruct (has_index x), (has_index y); reflexivity.
  - now rewrite IH1.
Qed.

(** C2 (as amended).  When an artifact update is pushed as a new artifact,
    no slot being replaced by index or by name, the returned snapshot holds
    the former artifacts and the new one, and if any of them carries an
    index the whole list is sorted ascending by index, an absent index
    counting as 0.  (A replacement leaves the order of the array as it is.) *)
Theorem pushed_artifact_list_sorted (now : Timestamp) (d : TaskAndHistory)
    (update : Artifact) :
  (forall i, index update = Some i ->
             i < 0 \/ Z.of_nat (length (artifacts_or_empty d)) <= i) ->
  (truthy (name update) = true ->
   findIndex (same_name (name update)) (artifacts_or_empty d) = None) ->
  exists l,
    artifacts (task (applyUpdateToTaskAndHistory now d (ArtifactValue update))) = Some l /\
    Permutation (artifacts_or_empty d ++ [update]) l /\
    (existsb has_index l = true -> StronglySorted index_le l).
Proof.
  intros Hidx Hname. rewrite apply_artifact_artifacts.
  rewrite (applyArtifact_pushed _ _ Hidx Hname).
  destruct (existsb has_index (artifacts_or_empty d ++ [update])) eqn:E.
  - eexists. split; [reflexivity|]. split.
    + apply sort_by_index_perm.
    + intros _. apply sort_by_index_sorted.
  - eexists. split; [reflexivity|]. split.
    + apply Permutation_refl.
    + rewrite E. discriminate.
Qed.

Lemma pushed_artifact_list_sorted_witness :
  exists l,
    artifacts (task
      (applyUpdateToTaskAndHistory "n2"
         (applyUpdateToTaskAndHistory "n1" (sample_data working Null [])
            (ArtifactValue (text_artifact (Some 5) None "five")))
         (ArtifactValue (text_artifact (Some 3) (Some "three") "three")))) = Some l /\
    Permutation [text_artifact (Some 5) None "five";
                 text_artifact (Some 3) (Some "three") "three"] l /\
    (existsb has_index l = true -> StronglySorted index_le l).
Proof.
  apply (pushed_artifact_list_sorted "n2"
           (applyUpdateToTaskAndHistory "n1" (sample_data working Null [])
              (ArtifactValue (text_artifact (Some 5) None "five")))
           (text_artifact (Some 3) (Some "three") "three")).
  - intros i Hi. injection Hi as <-. right. vm_compute. discriminate.
  - intros _. reflexivity.
Defined.

(** C2 (as stated) fails: three updates on an empty list, with indices 5, 7
    and 1.  The first two are pushed; the third has index 1, within bounds,
    and replaces the artifact at offset 1.  The list carries indices and is
    [5; 1], not ascending. *)
Lemma replaced_artifact_list_unsorted_counterexample :
  let five := text_artifact (Some 5) None "five" in
  let seven := text_artifact (Some 7) None "seven" in
  let one := text_artifact (Some 1) None "one" in
  let result :=
    applyUpdateToTaskAndHistory "n3"
      (applyUpdateToTaskAndHistory "n2"
         (applyUpdateToTaskAndHistory "n1" (sample_data working Null [])
            (ArtifactValue five))
         (ArtifactValue seven))
      (ArtifactValue one) in
  artifacts (task result) = Some [five; one] /\
  existsb has_index [five; one] = true /\
  ~ StronglySorted index_le [five; one].
Proof.
  repeat split.
  intros Hs. inversion Hs as [|a l Hl Hall]; subst.
  inversion Hall as [|b l' Hle _]; subst.
  unfold index_le in Hle. vm_compute in Hle. now apply Hle.
Qed.

(** An update with [append: true] for an index within bounds extends the
    parts of the artifact at that offset; without the flag it overwrites. *)
Example artifact_append_then_overwrite :
  let d := applyUpdateToTaskAndHistory "n0" (sample_data working Null [])
             (ArtifactValue (text_artifact (Some 0) None "A")) in
  let appended :=
    {| name := None; description := None; parts := [TextPart "B"]; index := Some 0;
       append := Some true; lastChunk := None; a_metadata := None |} in
  option_map (map parts)
    (artifacts (task (applyUpdateToTaskAndHistory "n1" d (ArtifactValue appended))))
    = Some [[TextPart "A"; TextPart "B"]] /\
  option_map (map parts)
    (artifacts (task (applyUpdateToTaskAndHistory "n1" d
                        (ArtifactValue (text_artifact (Some 0) None "C")))))
    = Some [[TextPart "C"]].
Proof. split; reflexivity. Qed.

(** ** The update model: status *)

(** C5 (as amended).  For every snapshot and status update the new status
    has the update's state, the update's message if the update has the key
    and the former message otherwise, and the current time as timestamp,
    whatever timestamp the update carried; the update's own message is
    appended to the end of history exactly when it is a message with role
    [agent] (a message kept from the former status is not appended again);
    the rest of the task is unchanged. *)
Theorem status_update_merge (now : Timestamp) (d : TaskAndHistory) (u : StatusUpdate) :
  let d' := applyUpdateToTaskAndHistory now d (StatusValue u) in
  state (status (task d')) = u_state u /\
  message (status (task d')) =
    match u_message u with Some m => m | None => message (status (task d)) end /\
  timestamp (status (task d')) = now /\
  history d' =
    match u_message u with
    | Some (Value msg) =>
        match role msg with agent => history d ++ [msg] | user => history d end
    | _ => history d
    end /\
  id (task d') = id (task d) /\ sessionId (task d') = sessionId (task d) /\
  artifacts (task d') = artifacts (task d) /\ metadata (task d') = metadata (task d).
Proof.
  simpl. repeat split.
  unfold agent_message.
  destruct (u_message u) as [[| |msg]|]; try reflexivity.
  destruct (role msg); reflexivity.
Qed.

(** C5 (as stated) fails: the status holds an agent message and the update
    has a state and no message.  The merged message is that agent message,
    and nothing is appended to history. *)
Lemma merged_agent_message_not_appended_counterexample :
  let d := sample_data working (Value (agent_says "thinking")) [user_says "hi"] in
  let u := {| u_state := completed; u_message := None; u_timestamp := None |} in
  let d' := applyUpdateToTaskAndHistory "now" d (StatusValue u) in
  message (status (task d')) = Value (agent_says "thinking") /\
  role (agent_says "thinking") = agent /\
  history d' = history d /\
  history d' <> history d ++ [agent_says "thinking"].
Proof. repeat split. discriminate. Qed.

(** ** The request envelope *)

(** C4 (as amended).  [isValidJsonRpcRequest] accepts an envelope if and only
    if it is an object whose version tag is the string ["2.0"], whose method
    is a string (the empty string included), whose id is a string, a number
    or [null], and whose params, when present, is an object, an array or
    [null]. *)
Theorem isValidJsonRpcRequest_iff (body : JSON) :
  isValidJsonRpcRequest body = true <-> envelope_condition body.
Proof.
  unfold isValidJsonRpcRequest, envelope_condition. split.
  - intros Hv.
    apply andb_true_iff in Hv as [Hv Hpar].
    apply andb_true_iff in Hv as [Hv Hid].
    apply andb_true_iff in Hv as [Hv Hmeth].
    apply andb_true_iff in Hv as [Hv Hver].
    apply andb_true_iff in Hv as [Hobj _].
    destruct body as [| | | | |members]; try discriminate.
    simpl in *. split; [eauto|].
    split.
    { destruct (obj_get "jsonrpc" members) as [[| | |s| |]|]; try discriminate.
      simpl in Hver. apply String.eqb_eq in Hver. now subst. }
    split.
    { destruct (obj_get "method" members) as [[| | |s| |]|]; try discriminate. eauto. }
    split.
    { destruct (obj_get "id" members) as [[| |n|s| |]|]; try discriminate; eauto. }
    destruct (obj_get "params" members) as [[| | | |l|o]|]; try discriminate; eauto 6.
  - intros (Hobj & Hver & Hmeth & Hid & Hpar).
    destruct Hobj as [members ->]. simpl in *.
    rewrite Hver. destruct Hmeth as [m ->]. simpl.
    assert (Hidb : is_null (obj_get "id" members)
                   || (typeof (obj_get "id" members) =? "string")%string
                   || (typeof (obj_get "id" members) =? "number")%string = true).
    { destruct Hid as [-> | [[s ->] | [n ->]]]; reflexivity. }
    rewrite Hidb. simpl.
    destruct Hpar as [-> | [-> | [[o ->] | [l ->]]]]; reflexivity.
Qed.

(** C4 (as stated) fails in both directions the wording adds: an envelope
    with the empty string as method is accepted, and so is one whose params
    is [null]. *)
Lemma isValidJsonRpcRequest_counterexample :
  let empty_method :=
    JObject [("jsonrpc", JString "2.0"); ("method", JString ""); ("id", JNumber 1)] in
  let null_params :=
    JObject [("jsonrpc", JString "2.0"); ("method", JString "tasks/get");
             ("id", JNull); ("params", JNull)] in
  (isValidJsonRpcRequest empty_method = true /\
   ~ envelope_condition_as_stated empty_method) /\
  (isValidJsonRpcRequest null_params = true /\
   ~ envelope_condition_as_stated null_params).
Proof.
  simpl. split; (split; [reflexivity|]).
  - intros (_ & (m & Hm & Hne) & _). vm_compute in Hm. injection Hm as <-.
    now apply Hne.
  - intros (_ & _ & _ & [Hp | [[o Hp] | [l Hp]]]); vm_compute in Hp; discriminate.
Qed.

(** ** The lifecycle controller and cancel *)

Arguments applyUpdateToTaskAndHistory : simpl never.

Lemma is_closed_includes s : is_closed s -> includes finalStates s = true.
Proof. intros [-> | [-> | ->]]; reflexivity. Qed.

(** Unfolds the plumbing of [Eff]. *)
Ltac eff_unfold :=
  cbv beta iota zeta delta
    [mbind mret Eff_bind Eff_ret throw of_sum try_catch try_finally
     lift get_currentData set_currentData get_lastEventWasFinal
     set_lastEventWasFinal taskStore_load getCurrentTimestamp sendEvent
     activeCancellations_add activeCancellations_delete set_cancellations
     close_stream set_closed awaiting applyUpdate isTaskStatusUpdate
     createSuccessResponse].

Section Cancel.

Context {S : Type} `{TaskStore S}.
Variable clock : nat -> Timestamp.

(** C9 (as amended).  [taskCancel] on a task whose state is completed,
    failed or canceled writes nothing to the store and leaves the
    cancellation flags as they are; with a request id that is not [null]
    it returns the loaded task unchanged in a success response; with a
    [null] request id [createSuccessResponse] throws and the call ends in
    an internal error. *)
Theorem cancel_closed_task (w : World) (req : CancelTaskRequest) (data : TaskAndHistory) :
  load (taskStore w) (c_taskId req) = inr (Some data) ->
  is_closed (state (status (task data))) ->
  taskCancel clock req w =
    (match c_id req with
     | Some rid =>
         Returned {| r_jsonrpc := "2.0"; r_id := rid; r_result := inl (task data) |}
     | None =>
         Threw (A2A (internalError "Cannot create a success response with a null ID"))
     end, w).
Proof.
  intros Hload Hclosed. unfold taskCancel. eff_unfold.
  rewrite Hload. cbv beta iota. rewrite (is_closed_includes _ Hclosed). simpl.
  destruct (c_id req); reflexivity.
Qed.

(** C3 (the defect).  On a task that is not closed, when the store refuses
    the write of the canceled snapshot, [taskCancel] throws what the store
    threw, and the task id, added to the cancellation flags before the
    write, is still among them: the [delete] after the [save] is not
    reached. *)
Theorem cancel_failed_save_keeps_flag (w : World) (req : CancelTaskRequest)
    (data : TaskAndHistory) (e : Exn) :
  load (taskStore w) (c_taskId req) = inr (Some data) ->
  includes finalStates (state (status (task data))) = false ->
  save (taskStore w)
    (applyUpdateToTaskAndHistory (clock (ticks w)) data (StatusValue cancelUpdate))
    = inl e ->
  exists w',
    taskCancel clock req w = (Threw e, w') /\
    c_taskId req ∈ activeCancellations w' /\
    taskStore w' = taskStore w.
Proof.
  intros Hload Hopen Hsave. unfold taskCancel, taskStore_save. eff_unfold.
  rewrite Hload. cbv beta iota. rewrite Hopen. simpl. rewrite Hsave.
  eexists. split; [reflexivity|]. simpl. split; [|reflexivity].
  apply elem_of_union. left. now apply elem_of_singleton.
Qed.

(** On the same path with a write that goes through, the flag is cleared
    and the canceled snapshot is what was written. *)
Lemma cancel_saved_clears_flag (w : World) (req : CancelTaskRequest)
    (data : TaskAndHistory) (s' : S) :
  load (taskStore w) (c_taskId req) = inr (Some data) ->
  includes finalStates (state (status (task data))) = false ->
  save (taskStore w)
    (applyUpdateToTaskAndHistory (clock (ticks w)) data (StatusValue cancelUpdate))
    = inr s' ->
  exists r w',
    taskCancel clock req w = (r, w') /\
    (c_taskId req ∉ activeCancellations w') /\
    taskStore w' = s' /\
    saves w' = saves w ++
      [applyUpdateToTaskAndHistory (clock (ticks w)) data (StatusValue cancelUpdate)].
Proof.
  intros Hload Hopen Hsave. unfold taskCancel, taskStore_save. eff_unfold.
  rewrite Hload. cbv beta iota. rewrite Hopen. simpl. rewrite Hsave. simpl.
  assert (Hgone : forall c : gset string, c_taskId req ∉ c ∖ {[c_taskId req]}).
  { intros c Hin. apply elem_of_difference in Hin as [_ Hn].
    apply Hn. now apply elem_of_singleton. }
  destruct (c_id req); simpl; do 2 eexists;
    (split; [reflexivity|]); simpl; (split; [apply Hgone | split; reflexivity]).
Qed.

End Cancel.

Section Lifecycle.

Context {S : Type} `{ReliableStore S}.
Variable clock : nat -> Timestamp.

Lemma taskStore_save_reliable (d : TaskAndHistory) (w : World) :
  taskStore_save d w =
    (Returned tt,
     {| taskStore := put (taskStore w) d; activeCancellations := activeCancellations w;
        ticks := ticks w; saves := saves w ++ [d]; sent := sent w;
        pending := pending w; written := written w; closed := closed w |}).
Proof. unfold taskStore_save. now rewrite save_put. Qed.

(** C8.  For an existing task whose state is completed, failed or
    canceled, [loadOrCreateTaskAndHistory] with a new message returns a
    snapshot in state [submitted], with status message [null], whose
    history is the former history followed by the new message; that
    snapshot is what it saves, and the store holds it afterwards. *)
Theorem closed_task_resubmitted (w : World) (taskId : string) (incoming : Message)
    (sessionId : option string) (metadata : option Metadata) (data : TaskAndHistory) :
  load (taskStore w) taskId = inr (Some data) ->
  is_closed (state (status (task data))) ->
  exists snapshot w',
    loadOrCreateTaskAndHistory clock taskId incoming sessionId metadata w
      = (Returned snapshot, w') /\
    state (status (task snapshot)) = submitted /\
    message (status (task snapshot)) = Null /\
    history snapshot = history data ++ [incoming] /\
    saves w' = saves w ++ [snapshot] /\
    load (taskStore w') (id (task snapshot)) = inr (Some snapshot).
Proof.
  intros Hload Hclosed. unfold loadOrCreateTaskAndHistory. eff_unfold.
  rewrite Hload. cbv beta iota. cbn [task status state].
  rewrite (is_closed_includes _ Hclosed). cbv beta iota.
  rewrite taskStore_save_reliable.
  do 2 eexists. split; [reflexivity|].
  cbn [saves taskStore]. repeat split. apply load_put.
Qed.

End Lifecycle.

Lemma closed_task_resubmitted_witness :
  exists snapshot w',
    loadOrCreateTaskAndHistory sample_clock "t1" (user_says "m3") None None
      (sample_world (sample_data completed (Value (agent_says "m2"))
                       [user_says "m1"; agent_says "m2"]))
      = (Returned snapshot, w') /\
    state (status (task snapshot)) = submitted /\
    message (status (task snapshot)) = Null /\
    history snapshot = [user_says "m1"; agent_says "m2"] ++ [user_says "m3"] /\
    saves w' = [] ++ [snapshot] /\
    load (taskStore w') (id (task snapshot)) = inr (Some snapshot).
Proof.
  apply (closed_task_resubmitted sample_clock
           (sample_world (sample_data completed (Value (agent_says "m2"))
                            [user_says "m1"; agent_says "m2"]))
           "t1" (user_says "m3") None None
           (sample_data completed (Value (agent_says "m2"))
              [user_says "m1"; agent_says "m2"])).
  - reflexivity.
  - left. reflexivity.
Defined.

Lemma cancel_closed_task_witness :
  taskCancel sample_clock (cancel_request (Some (IdNumber 7)))
    (sample_world (sample_data completed Null [user_says "m1"]))
  = (Returned {| r_jsonrpc := "2.0"; r_id := IdNumber 7;
                 r_result := inl (sample_task completed Null) |},
     sample_world (sample_data completed Null [user_says "m1"])).
Proof.
  apply (cancel_closed_task sample_clock
           (sample_world (sample_data completed Null [user_says "m1"]))
           (cancel_request (Some (IdNumber 7)))
           (sample_data completed Null [user_says "m1"])).
  - reflexivity.
  - left. reflexivity.
Defined.

(** C9 (as stated) fails: a cancel request with a [null] id for a completed
    task does not end in a success result; the call throws. *)
Lemma cancel_closed_task_null_id_counterexample :
  let w := sample_world (sample_data completed Null [user_says "m1"]) in
  load (taskStore w) "t1" = inr (Some (sample_data completed Null [user_says "m1"])) /\
  (forall resp w', taskCancel sample_clock (cancel_request None) w <> (Returned resp, w')) /\
  fst (taskCancel sample_clock (cancel_request None) w)
    = Threw (A2A (internalError "Cannot create a success response with a null ID")).
Proof.
  simpl. split; [reflexivity|]. split; [|reflexivity].
  intros resp w'. vm_compute. discriminate.
Qed.

Lemma cancel_failed_save_keeps_flag_witness :
  exists w',
    taskCancel sample_clock (cancel_request (Some (IdNumber 7)))
      (read_only_world (sample_data working Null [user_says "m1"]))
      = (Threw (JsError "store unavailable"), w') /\
    "t1" ∈ activeCancellations w' /\
    taskStore w' = taskStore (read_only_world (sample_data working Null [user_says "m1"])).
Proof.
  apply (cancel_failed_save_keeps_flag sample_clock
           (read_only_world (sample_data working Null [user_says "m1"]))
           (cancel_request (Some (IdNumber 7)))
           (sample_data working Null [user_says "m1"])
           (JsError "store unavailable")).
  - reflexivity.
  - reflexivity.
  - reflexivity.
Defined.

(** ** Streaming *)

Lemma includes_terminalStates s :
  includes terminalStates s = true <-> is_stream_terminal s.
Proof.
  unfold is_stream_terminal.
  destruct s; simpl; split; intros E; try reflexivity; try discriminate E; eauto;
    destruct E as [E | [E | [E | E]]]; discriminate E.
Qed.

Lemma apply_other_unchanged now d v :
  applyUpdateToTaskAndHistory now d (OtherValue v) = d.
Proof. destruct d. reflexivity. Qed.

Lemma apply_artifact_status now d a :
  status (task (applyUpdateToTaskAndHistory now d (ArtifactValue a))) = status (task d).
Proof. reflexivity. Qed.

Section Streaming.

Context {S : Type} `{ReliableStore S}.
Variable clock : nat -> Timestamp.
Variable req : SendTaskRequest.
Variable context : TaskContext.
Variable rid : RequestId.
Hypothesis req_id_not_null : req_id req = Some rid.

Let taskId : string := p_id (params req).

Lemma awaiting_save (d : TaskAndHistory) (w : World) :
  awaiting (taskStore_save d) w = (Returned tt, after_update w d (ticks w) []).
Proof.
  unfold awaiting. rewrite taskStore_save_reliable.
  unfold settle, after_update. cbn [taskStore activeCancellations ticks saves sent
                                     pending written closed].
  now rewrite app_nil_r.
Qed.

Lemma drain_status (u : StatusUpdate) (next : TaskContext -> Generator)
    (l : Locals) (w : World) :
  let d := applyUpdateToTaskAndHistory (clock (ticks w)) (currentData l) (StatusValue u) in
  let final := includes terminalStates (state (status (task d))) in
  let s' := ({| currentData := d; lastEventWasFinal := final |},
             after_update w d (Datatypes.S (ticks w))
               [status_response req rid (status (task d)) final]) in
  drain clock req context (Yield (StatusValue u) next) (l, w) =
    if final then (Returned tt, s')
    else drain clock req context (next (resumed_context context s')) s'.
Proof.
  intros d final s'. cbn [drain].
  cbv beta iota zeta delta
    [mbind mret Eff_bind Eff_ret throw of_sum lift get_currentData set_currentData
     set_lastEventWasFinal getCurrentTimestamp sendEvent applyUpdate
     isTaskStatusUpdate createSuccessResponse].
  cbn [fst snd]. rewrite awaiting_save. cbv beta iota. rewrite req_id_not_null.
  cbv beta iota.
  cbn [fst snd currentData lastEventWasFinal taskStore activeCancellations ticks
       saves sent pending written closed after_update].
  rewrite app_nil_r. fold d. fold final.
  destruct final eqn:E; reflexivity.
Qed.

Lemma drain_artifact (a : Artifact) (next : TaskContext -> Generator)
    (l : Locals) (w : World) :
  let d := applyUpdateToTaskAndHistory (clock (ticks w)) (currentData l) (ArtifactValue a) in
  let s' := ({| currentData := d; lastEventWasFinal := false |},
             after_update w d (ticks w) [artifact_response req rid (updated_artifact d a)]) in
  drain clock req context (Yield (ArtifactValue a) next) (l, w) =
    drain clock req context (next (resumed_context context s')) s'.
Proof.
  intros d s'. cbn [drain].
  cbv beta iota zeta delta
    [mbind mret Eff_bind Eff_ret throw of_sum lift get_currentData set_currentData
     set_lastEventWasFinal getCurrentTimestamp sendEvent applyUpdate
     isTaskStatusUpdate createSuccessResponse].
  cbn [fst snd]. rewrite awaiting_save. cbv beta iota. rewrite req_id_not_null.
  cbv beta iota.
  cbn [fst snd currentData lastEventWasFinal taskStore activeCancellations ticks
       saves sent pending written closed after_update].
  rewrite app_nil_r. reflexivity.
Qed.

Lemma drain_other (v : JSON) (next : TaskContext -> Generator)
    (l : Locals) (w : World) :
  let s' := (l, after_update w (currentData l) (ticks w) []) in
  drain clock req context (Yield (OtherValue v) next) (l, w) =
    drain clock req context (next (resumed_context context s')) s'.
Proof.
  intros s'. cbn [drain].
  cbv beta iota zeta delta
    [mbind mret Eff_bind Eff_ret throw of_sum lift get_currentData set_currentData
     set_lastEventWasFinal getCurrentTimestamp sendEvent applyUpdate
     isTaskStatusUpdate createSuccessResponse].
  cbn [fst snd]. rewrite apply_other_unchanged, awaiting_save. cbv beta iota.
  cbn [fst snd currentData lastEventWasFinal].
  subst s'. destruct l as [d b]. reflexivity.
Qed.

(** The loop never closes the stream. *)
Lemma drain_keeps_open (g : Generator) :
  forall s s' out, drain clock req context g s = (out, s') ->
    closed (snd s') = closed (snd s).
Proof.
  induction g as [| error | yieldValue next IH]; intros [l w] s' out Hrun.
  - cbn in Hrun. now injection Hrun as <- <-.
  - cbn in Hrun. now injection Hrun as <- <-.
  - destruct yieldValue as [u | a | v].
    + rewrite drain_status in Hrun. cbv zeta in Hrun.
      destruct (includes terminalStates _).
      * now injection Hrun as <- <-.
      * apply IH in Hrun. exact Hrun.
    + rewrite drain_artifact in Hrun. cbv zeta in Hrun. apply IH in Hrun. exact Hrun.
    + rewrite drain_other in Hrun. cbv zeta in Hrun. apply IH in Hrun. exact Hrun.
Qed.

(** One turn of the loop before the rest of the run: the save let the
    writes in flight run, and the events of the turn, none final, were
    given to the stream. *)
Lemma drained_after_turn (s s1 s' : Locals * @World S) (out : Outcome unit)
    (turn : list StreamResponse) :
  sent (snd s1) = sent (snd s) ++ turn ->
  written (snd s1) = written (snd s) ++ pending (snd s) ->
  pending (snd s1) = turn ->
  Forall not_final turn ->
  (~ is_stream_terminal (state (status (task (currentData (fst s))))) ->
   ~ is_stream_terminal (state (status (task (currentData (fst s1)))))) ->
  drained req rid s1 s' out -> drained req rid s s' out.
Proof.
  intros Hsent Hwritten Hpending Hturn Hstate
    [events delivered Hs Hw Hq Hall Hflag Hst | events Hs Hw Hp Hall Hterm Hflag Hout].
  - apply (drained_open _ _ _ _ _ (turn ++ events) (pending (snd s) ++ delivered)).
    + rewrite Hs, Hsent, <- app_assoc. reflexivity.
    + rewrite Hw, Hwritten, <- app_assoc. reflexivity.
    + rewrite <- (app_assoc (pending (snd s)) delivered), <- Hpending.
      exact (f_equal (fun q => pending (snd s) ++ q) Hq).
    + apply Forall_app; split; assumption.
    + exact Hflag.
    + intros Hopen. apply Hst, Hstate, Hopen.
  - apply (drained_final _ _ _ _ _ (turn ++ events)); try assumption.
    + rewrite Hs, Hsent, <- !app_assoc. reflexivity.
    + rewrite Hw, Hwritten, Hpending, <- !app_assoc. reflexivity.
    + apply Forall_app; split; assumption.
Qed.

Lemma drain_drained (g : Generator) :
  forall s s' out,
    drain clock req context g s = (out, s') ->
    closed (snd s) = false ->
    lastEventWasFinal (fst s) = false ->
    drained req rid s s' out.
Proof.
  induction g as [| error | yieldValue next IH]; intros [l w] s' out Hrun Hopen Hflag.
  - cbn in Hrun. injection Hrun as <- <-.
    apply (drained_open _ _ _ _ _ [] []);
      [symmetry; apply app_nil_r | symmetry; apply app_nil_r
      | cbn; symmetry; apply app_nil_r | constructor | exact Hflag | auto].
  - cbn in Hrun. injection Hrun as <- <-.
    apply (drained_open _ _ _ _ _ [] []);
      [symmetry; apply app_nil_r | symmetry; apply app_nil_r
      | cbn; symmetry; apply app_nil_r | constructor | exact Hflag | auto].
  - cbn [fst snd] in Hopen, Hflag. destruct yieldValue as [u | a | v].
    + rewrite drain_status in Hrun. cbv zeta in Hrun.
      destruct (includes terminalStates _) eqn:Efinal.
      * injection Hrun as <- <-.
        apply (drained_final _ _ _ _ _ []).
        -- reflexivity.
        -- cbn [snd fst written after_update]. rewrite Hopen, app_nil_r. reflexivity.
        -- reflexivity.
        -- constructor.
        -- apply includes_terminalStates. exact Efinal.
        -- reflexivity.
        -- reflexivity.
      * apply IH in Hrun; [|exact Hopen|reflexivity].
        eapply drained_after_turn; [| | | | |exact Hrun].
        -- reflexivity.
        -- cbn [snd fst written after_update]. now rewrite Hopen.
        -- reflexivity.
        -- repeat constructor.
        -- intros _ Hterm. apply includes_terminalStates in Hterm.
           cbn [fst currentData] in Hterm. congruence.
    + rewrite drain_artifact in Hrun. cbv zeta in Hrun.
      apply IH in Hrun; [|exact Hopen|reflexivity].
      eapply drained_after_turn; [| | | | |exact Hrun].
      * reflexivity.
      * cbn [snd fst written after_update]. now rewrite Hopen.
      * reflexivity.
      * repeat constructor.
      * cbn [fst currentData]. now rewrite apply_artifact_status.
    + rewrite drain_other in Hrun. cbv zeta in Hrun.
      apply IH in Hrun; [|exact Hopen|exact Hflag].
      eapply drained_after_turn; [| | | | |exact Hrun].
      * reflexivity.
      * cbn [snd fst written after_update]. now rewrite Hopen.
      * reflexivity.
      * constructor.
      * auto.
Qed.

Lemma finalize_forced (l : Locals) (w : World) :
  lastEventWasFinal l = false ->
  finalize clock req (l, w) =
    (Returned tt,
     ({| currentData := forced_data clock l w; lastEventWasFinal := false |},
      forced_world clock req rid l w)).
Proof.
  intros Hflag. unfold finalize, forced_world, forced_data, status_response.
  cbv beta iota zeta delta
    [mbind mret Eff_bind Eff_ret throw of_sum lift get_currentData set_currentData
     get_lastEventWasFinal getCurrentTimestamp sendEvent applyUpdate
     isTaskStatusUpdate createSuccessResponse].
  cbn [fst snd]. rewrite Hflag. cbn [negb].
  destruct (includes terminalStates (state (status (task (currentData l))))) eqn:E;
    cbn [negb fst snd]; rewrite ?E; cbn [negb fst snd].
  - rewrite req_id_not_null. cbn [fst snd currentData lastEventWasFinal].
    destruct l as [d b]. cbn in Hflag. subst b. reflexivity.
  - rewrite awaiting_save. cbv beta iota.
    rewrite req_id_not_null. cbn [fst snd currentData lastEventWasFinal].
    rewrite Hflag.
    cbn [after_update taskStore activeCancellations ticks saves sent pending
         written closed].
    rewrite app_nil_r. reflexivity.
Qed.

Lemma forced_data_state (l : Locals) (w : @World S) :
  includes terminalStates (state (status (task (currentData l)))) = false ->
  state (status (task (forced_data clock l w))) = completed.
Proof. intros E. unfold forced_data. now rewrite E. Qed.

Lemma forced_world_closed (l : Locals) (w : @World S) :
  closed (forced_world clock req rid l w) = closed w.
Proof.
  unfold forced_world.
  destruct (includes terminalStates (state (status (task (currentData l)))));
    reflexivity.
Qed.

(** The whole callback on a handler whose sequence ends with no final
    event given to the stream: the final event is given, and the stream
    is closed with that write still in flight. *)
Lemma callback_forced (g : Generator) (s : Locals * World) (l1 : Locals) (w1 : World) :
  drain clock req context g s = (Returned tt, (l1, w1)) ->
  lastEventWasFinal l1 = false ->
  closed w1 = false ->
  stream_callback clock req context g s =
    (Returned tt,
     ({| currentData := forced_data clock l1 w1; lastEventWasFinal := false |},
      set_closed (forced_world clock req rid l1 w1))).
Proof.
  intros Hrun Hflag Hopen.
  unfold stream_callback, try_finally, try_catch, mbind, Eff_bind.
  rewrite Hrun, (finalize_forced _ _ Hflag).
  unfold lift, close_stream. cbn [fst snd].
  now rewrite forced_world_closed, Hopen.
Qed.

(** The callback on a loop that returned on a final event: nothing is left
    to do but to close the stream. *)
Lemma callback_final (g : Generator) (s : Locals * World) (l1 : Locals) (w1 : World) :
  drain clock req context g s = (Returned tt, (l1, w1)) ->
  lastEventWasFinal l1 = true ->
  closed w1 = false ->
  stream_callback clock req context g s = (Returned tt, (l1, set_closed w1)).
Proof.
  intros Hrun Hflag Hopen.
  unfold stream_callback, try_finally, try_catch, mbind, Eff_bind.
  rewrite Hrun. unfold finalize.
  cbv beta iota zeta delta [mbind mret Eff_bind Eff_ret get_lastEventWasFinal].
  cbn [fst snd]. rewrite Hflag. cbn [negb].
  unfold lift, close_stream. cbn [fst snd]. now rewrite Hopen.
Qed.

(** The [catch] block: the failure status is saved, which lets the writes
    in flight run, and its event is given to the stream. *)
Lemma on_error_result (error : Exn) (l : Locals) (w : World) :
  let d := applyUpdateToTaskAndHistory (clock (ticks w)) (currentData l)
             (StatusValue (createTaskFailureStatusUpdate error)) in
  on_error clock req error (l, w) =
    (Returned tt,
     ({| currentData := d; lastEventWasFinal := lastEventWasFinal l |},
      after_update w d (Datatypes.S (ticks w))
        [status_response req rid (status (task d)) true])).
Proof.
  intros d. unfold on_error.
  cbv beta iota zeta delta
    [mbind mret Eff_bind Eff_ret throw of_sum try_catch lift get_currentData
     set_currentData getCurrentTimestamp sendEvent applyUpdate isTaskStatusUpdate
     createSuccessResponse createTaskFailureStatusUpdate].
  cbn [fst snd]. rewrite awaiting_save. cbv beta iota. rewrite req_id_not_null.
  cbn [fst snd currentData lastEventWasFinal after_update taskStore
       activeCancellations ticks saves sent pending written closed].
  rewrite app_nil_r. reflexivity.
Qed.

Lemma callback_failed (g : Generator) (s : Locals * World) (error : Exn)
    (l1 : Locals) (w1 : World) :
  drain clock req context g s = (Threw error, (l1, w1)) ->
  closed w1 = false ->
  let d := applyUpdateToTaskAndHistory (clock (ticks w1)) (currentData l1)
             (StatusValue (createTaskFailureStatusUpdate error)) in
  stream_callback clock req context g s =
    (Returned tt,
     ({| currentData := d; lastEventWasFinal := lastEventWasFinal l1 |},
      set_closed (after_update w1 d (Datatypes.S (ticks w1))
                    [status_response req rid (status (task d)) true]))).
Proof.
  intros Hrun Hopen d.
  unfold stream_callback, try_finally, try_catch, mbind, Eff_bind.
  rewrite Hrun, on_error_result.
  unfold lift, close_stream. cbn [fst snd after_update closed]. now rewrite Hopen.
Qed.

(** Every way the callback can end, for a task that is not in a terminal
    state when the stream is opened: the events given to the stream are
    events that are not final followed by one final status event; the
    stream is closed with the write of that one still in flight, so that
    what reached the stream is the events before it. *)
Lemma callback_run (g : Generator) (s : Locals * World) :
  closed (snd s) = false ->
  lastEventWasFinal (fst s) = false ->
  pending (snd s) = [] ->
  ~ is_stream_terminal (state (status (task (currentData (fst s))))) ->
  exists events last_status l' w',
    stream_callback clock req context g s = (Returned tt, (l', w')) /\
    sent w' = sent (snd s) ++ events ++ [status_response req rid last_status true] /\
    written w' = written (snd s) ++ events /\
    Forall not_final events /\
    is_stream_terminal (state last_status) /\
    pending w' = [] /\ closed w' = true.
Proof.
  intros Hopen Hflag Hpending Hstate.
  destruct (drain clock req context g s) as [out [l1 w1]] eqn:Hrun.
  pose proof (drain_keeps_open g s _ _ Hrun) as Hopen1.
  cbn [snd] in Hopen1. rewrite Hopen in Hopen1.
  destruct (drain_drained g s _ _ Hrun Hopen Hflag)
    as [events delivered Hs Hw Hq Hall Hflag1 Hst | events Hs Hw Hp Hall Hterm Hflag1 Hout];
    cbn [fst snd] in *.
  - rewrite Hpending in Hq. cbn [app] in Hq. subst events.
    specialize (Hst Hstate).
    destruct out as [[] | error].
    + exists (delivered ++ pending w1), (status (task (forced_data clock l1 w1))).
      rewrite (callback_forced g s l1 w1 Hrun Hflag1 Hopen1).
      do 2 eexists. split; [reflexivity|].
      assert (E : includes terminalStates (state (status (task (currentData l1)))) = false).
      { destruct (includes terminalStates _) eqn:E; [|reflexivity].
        apply includes_terminalStates in E. now contradiction Hst. }
      unfold forced_world. rewrite E.
      cbn [set_closed after_update sent written pending closed].
      rewrite Hopen1, Hs, Hw, <- !app_assoc.
      repeat split; try assumption.
      rewrite (forced_data_state _ _ E). left. reflexivity.
    + exists (delivered ++ pending w1),
        (status (task (applyUpdateToTaskAndHistory (clock (ticks w1)) (currentData l1)
                         (StatusValue (createTaskFailureStatusUpdate error))))).
      rewrite (callback_failed g s error l1 w1 Hrun Hopen1).
      do 2 eexists. split; [reflexivity|].
      cbn [set_closed after_update sent written pending closed].
      rewrite Hopen1, Hs, Hw, <- !app_assoc.
      repeat split; try assumption.
      right. left. reflexivity.
  - subst out. exists events, (status (task (currentData l1))).
    rewrite (callback_final g s l1 w1 Hrun Hflag1 Hopen1).
    do 2 eexists. split; [reflexivity|].
    cbn [set_closed sent written pending closed].
    rewrite Hs, Hw, Hpending. cbn [app].
    repeat split; assumption.
Qed.

(** C6 (the defect).  In [taskSendSubscribe], for a request whose id is not
    [null] and while the store takes the writes: every status update the
    loop pulls is applied, saved and given to the stream as a status event
    whose [final] flag is true exactly when the state after the update is
    completed, failed, canceled or input-required; every artifact update
    is given to the stream as an artifact event with [final] false; and
    after a final event the loop returns without resuming the handler.
    But the write of an event is not waited for: when the loop has
    returned on a final event, the callback closes the stream with that
    write still in flight, and what has reached the stream is the events
    given before it, none of them final.  The final event is not sent. *)
Theorem stream_final_event_lost :
  (forall (u : StatusUpdate) (next : TaskContext -> Generator) (l : Locals) (w : World),
     let d := applyUpdateToTaskAndHistory (clock (ticks w)) (currentData l)
                (StatusValue u) in
     exists final : bool,
       (final = true <-> is_stream_terminal (state (status (task d)))) /\
       let s' := ({| currentData := d; lastEventWasFinal := final |},
                  after_update w d (Datatypes.S (ticks w))
                    [status_response req rid (status (task d)) final]) in
       drain clock req context (Yield (StatusValue u) next) (l, w) =
         if final then (Returned tt, s')
         else drain clock req context (next (resumed_context context s')) s') /\
  (forall (a : Artifact) (next : TaskContext -> Generator) (l : Locals) (w : World),
     let d := applyUpdateToTaskAndHistory (clock (ticks w)) (currentData l)
                (ArtifactValue a) in
     let s' := ({| currentData := d; lastEventWasFinal := false |},
                after_update w d (ticks w)
                  [artifact_response req rid (updated_artifact d a)]) in
     response_final (artifact_response req rid (updated_artifact d a)) = false /\
     drain clock req context (Yield (ArtifactValue a) next) (l, w) =
       drain clock req context (next (resumed_context context s')) s') /\
  (forall (g : Generator) (s : Locals * World) (out : Outcome unit)
          (l1 : Locals) (w1 : World),
     closed (snd s) = false ->
     lastEventWasFinal (fst s) = false ->
     pending (snd s) = [] ->
     drain clock req context g s = (out, (l1, w1)) ->
     lastEventWasFinal l1 = true ->
     let final_event := status_response req rid (status (task (currentData l1))) true in
     exists events w2,
       stream_callback clock req context g s = (Returned tt, (l1, w2)) /\
       response_final final_event = true /\
       sent w2 = sent (snd s) ++ events ++ [final_event] /\
       written w2 = written (snd s) ++ events /\
       Forall not_final events /\
       pending w2 = [] /\ closed w2 = true).
Proof.
  split; [|split].
  - intros u next l w d.
    exists (includes terminalStates (state (status (task d)))).
    split; [apply includes_terminalStates|]. apply drain_status.
  - intros a next l w d s'. split; [reflexivity|]. apply drain_artifact.
  - intros g s out l1 w1 Hopen Hflag Hpending Hrun Hflag1 final_event.
    pose proof (drain_keeps_open g s _ _ Hrun) as Hopen1.
    cbn [snd] in Hopen1. rewrite Hopen in Hopen1.
    destruct (drain_drained g s _ _ Hrun Hopen Hflag)
      as [events delivered _ _ _ _ Hf _ | events Hs Hw Hp Hall Hterm _ Hout];
      cbn [fst snd] in *.
    + congruence.
    + subst out. exists events, (set_closed w1).
      split; [exact (callback_final g s l1 w1 Hrun Hflag1 Hopen1)|].
      cbn [set_closed sent written pending closed].
      rewrite Hs, Hw, Hpending. cbn [app].
      repeat split; assumption.
Qed.

End Streaming.

Lemma apply_status_state now d u :
  state (status (task (applyUpdateToTaskAndHistory now d (StatusValue u)))) = u_state u.
Proof. reflexivity. Qed.

Section Subscribe.

Context {S : Type} `{ReliableStore S}.
Variable clock : nat -> Timestamp.
Variable validateTaskSendParams : SendTaskRequest -> option Exn.

Lemma loadOrCreate_returns (w : World) (taskId : string) (incoming : Message)
    (sessionId : option string) (metadata : option Metadata)
    (loaded : option TaskAndHistory) :
  load (taskStore w) taskId = inr loaded ->
  exists data w1,
    loadOrCreateTaskAndHistory clock taskId incoming sessionId metadata w
      = (Returned data, w1).
Proof.
  intros Hload. unfold loadOrCreateTaskAndHistory. eff_unfold.
  rewrite Hload. cbv beta iota.
  destruct loaded as [data|].
  - cbn [task status state].
    destruct (includes finalStates (state (status (task data)))).
    + rewrite taskStore_save_reliable. eauto.
    + destruct (TaskState_eqb (state (status (task data))) input_required).
      * rewrite taskStore_save_reliable. eauto.
      * rewrite taskStore_save_reliable. eauto.
  - rewrite taskStore_save_reliable. eauto.
Qed.

(** C7 (the defect).  In [taskSendSubscribe], for a request whose id is not
    [null] and while the store takes the writes: when the handler's
    sequence is exhausted and no final event has been given to the stream,
    the callback applies and saves a status update to [completed] if the
    state of the task is not completed, failed, canceled or
    input-required, and leaves the task as it is otherwise; it then gives
    the stream one status event, marked final, with the status the task
    ends in.  But it does not wait for that write and closes the stream at
    once: what has reached the stream when the callback returns is events
    given before, none of them final.  A handler that yields only
    [{ state: 'working' }] has the [completed] status saved and gets a
    stream that holds the [working] event alone. *)
Theorem forced_final_event_lost :
  (forall (req : SendTaskRequest) (context : TaskContext) (rid : RequestId)
          (g : Generator) (s : Locals * World) (l1 : Locals) (w1 : World),
     req_id req = Some rid ->
     closed (snd s) = false ->
     lastEventWasFinal (fst s) = false ->
     pending (snd s) = [] ->
     drain clock req context g s = (Returned tt, (l1, w1)) ->
     lastEventWasFinal l1 = false ->
     let ended := forced_data clock l1 w1 in
     let final_event := status_response req rid (status (task ended)) true in
     exists events delivered w2,
       stream_callback clock req context g s =
         (Returned tt, ({| currentData := ended; lastEventWasFinal := false |}, w2)) /\
       response_final final_event = true /\
       sent w2 = sent (snd s) ++ events ++ [final_event] /\
       written w2 = written (snd s) ++ delivered /\
       Forall not_final events /\
       Forall not_final delivered /\
       pending w2 = [] /\ closed w2 = true /\
       (is_stream_terminal (state (status (task (currentData l1)))) ->
        ended = currentData l1 /\ saves w2 = saves w1 /\ taskStore w2 = taskStore w1) /\
       (~ is_stream_terminal (state (status (task (currentData l1)))) ->
        ended = applyUpdateToTaskAndHistory (clock (ticks w1)) (currentData l1)
                  (StatusValue completedUpdate) /\
        state (status (task ended)) = completed /\
        saves w2 = saves w1 ++ [ended] /\
        load (taskStore w2) (id (task ended)) = inr (Some ended) /\
        delivered = events)) /\
  (forall (req : SendTaskRequest) (rid : RequestId) (w : World)
          (loaded : option TaskAndHistory),
     validateTaskSendParams req = None ->
     req_id req = Some rid ->
     load (taskStore w) (p_id (params req)) = inr loaded ->
     exists st1 st2 w',
       taskSendSubscribe clock working_only_handler validateTaskSendParams req w
         = (Returned (Returned tt), w') /\
       sent w' = [status_response req rid st1 false;
                  status_response req rid st2 true] /\
       written w' = [status_response req rid st1 false] /\
       closed w' = true /\
       state st1 = working /\ state st2 = completed /\
       exists earlier d, saves w' = earlier ++ [d] /\ status (task d) = st2).
Proof.
  split.
  - intros req context rid g s l1 w1 Hrid Hopen Hflag Hpending Hrun Hflag1
      ended final_event.
    pose proof (drain_keeps_open clock req context rid Hrid g s _ _ Hrun) as Hopen1.
    cbn [snd] in Hopen1. rewrite Hopen in Hopen1.
    destruct (drain_drained clock req context rid Hrid g s _ _ Hrun Hopen Hflag)
      as [events delivered Hs Hw Hq Hall _ _ | events _ _ _ _ _ Hf _];
      cbn [fst snd] in *; [|congruence].
    rewrite Hpending in Hq. cbn [app] in Hq. subst events.
    assert (Hdelivered : Forall not_final delivered).
    { now apply Forall_app in Hall as [Hd _]. }
    pose proof (callback_forced clock req context rid Hrid g s l1 w1 Hrun Hflag1 Hopen1)
      as Hcb.
    subst ended final_event. unfold forced_world, forced_data in *.
    destruct (includes terminalStates (state (status (task (currentData l1))))) eqn:E.
    + exists (delivered ++ pending w1), delivered. eexists. split; [exact Hcb|].
      cbn [set_closed sent written pending closed taskStore saves].
      rewrite Hs, Hw, <- !app_assoc.
      repeat split; try assumption.
      all: exfalso.
      all: match goal with Hn : ~ is_stream_terminal _ |- _ =>
             apply Hn, includes_terminalStates; exact E end.
    + exists (delivered ++ pending w1), (delivered ++ pending w1).
      eexists. split; [exact Hcb|].
      cbn [set_closed after_update sent written pending closed taskStore saves].
      rewrite Hopen1, Hs, Hw, <- !app_assoc.
      repeat split; try assumption.
      all: try match goal with Ht : is_stream_terminal _ |- _ =>
                 apply includes_terminalStates in Ht; congruence end.
      apply load_put.
  - intros req rid w loaded Hvalid Hrid Hload.
    destruct (loadOrCreate_returns w (p_id (params req)) (p_message (params req))
                (p_sessionId (params req)) (p_metadata (params req)) loaded Hload)
      as (data & w1 & Hdata).
    unfold taskSendSubscribe. eff_unfold. rewrite Hvalid. cbv beta iota.
    rewrite Hdata. cbv beta iota.
    set (context := createTaskContext (task data) (p_message (params req))
                      (history data) w1).
    set (opened := mkWorld _ _ _ _ [] [] [] false).
    set (l0 := {| currentData := data; lastEventWasFinal := false |}).
    set (d := applyUpdateToTaskAndHistory (clock (ticks opened)) data
                (StatusValue {| u_state := working; u_message := None;
                                u_timestamp := None |})).
    assert (Hstep :
      drain clock req context
        (Yield (StatusValue {| u_state := working; u_message := None;
                               u_timestamp := None |}) (fun _ => Done)) (l0, opened)
      = (Returned tt,
         ({| currentData := d; lastEventWasFinal := false |},
          after_update opened d (Datatypes.S (ticks opened))
            [status_response req rid (status (task d)) false]))).
    { rewrite (drain_status clock req context rid Hrid). cbv zeta.
      cbn [currentData l0]. fold d. unfold d at 1. rewrite apply_status_state.
      reflexivity. }
    unfold working_only_handler.
    rewrite (callback_forced clock req context rid Hrid _ _ _ _ Hstep eq_refl eq_refl).
    exists (status (task d)),
      (status (task (forced_data clock {| currentData := d; lastEventWasFinal := false |}
                       (after_update opened d (Datatypes.S (ticks opened))
                          [status_response req rid (status (task d)) false])))).
    eexists. split; [reflexivity|].
    assert (E : includes terminalStates (state (status (task d))) = false) by reflexivity.
    unfold forced_world. cbn [currentData]. rewrite E.
    cbn [set_closed after_update sent written pending closed saves opened app].
    split; [reflexivity|]. split; [reflexivity|]. split; [reflexivity|].
    split; [reflexivity|].
    split; [apply forced_data_state; exact E|].
    do 2 eexists. split; reflexivity.
Qed.

End Subscribe.

Lemma stream_final_event_lost_witness :
  let req := sample_request (Some (IdNumber 1)) in
  let g := Yield (StatusValue {| u_state := working; u_message := None;
                                 u_timestamp := None |})
             (fun _ => Yield (StatusValue completedUpdate)
                         (fun _ => Yield (ArtifactValue (text_artifact (Some 0) None "late"))
                                     (fun _ => Done))) in
  let s := ({| currentData := sample_data submitted Null [user_says "hi"];
               lastEventWasFinal := false |},
            sample_world (sample_data submitted Null [user_says "hi"])) in
  let l1 := fst (snd (drain sample_clock req sample_context g s)) in
  let final_event :=
    status_response req (IdNumber 1) (status (task (currentData l1))) true in
  exists events w2,
    stream_callback sample_clock req sample_context g s = (Returned tt, (l1, w2)) /\
    response_final final_event = true /\
    sent w2 = [] ++ events ++ [final_event] /\
    written w2 = [] ++ events /\
    Forall not_final events /\
    pending w2 = [] /\ closed w2 = true.
Proof.
  intros req g s l1.
  apply (proj2 (proj2 (stream_final_event_lost sample_clock req sample_context
                         (IdNumber 1) eq_refl))
           g s (fst (drain sample_clock req sample_context g s)) l1
           (snd (snd (drain sample_clock req sample_context g s)))).
  - reflexivity.
  - reflexivity.
  - reflexivity.
  - reflexivity.
  - reflexivity.
Defined.

Lemma forced_final_event_lost_witness :
  exists st1 st2 w',
    taskSendSubscribe sample_clock working_only_handler accept_all
      (sample_request (Some (IdNumber 1))) empty_world
      = (Returned (Returned tt), w') /\
    sent w' = [status_response (sample_request (Some (IdNumber 1))) (IdNumber 1) st1 false;
               status_response (sample_request (Some (IdNumber 1))) (IdNumber 1) st2 true] /\
    written w' = [status_response (sample_request (Some (IdNumber 1))) (IdNumber 1) st1 false] /\
    closed w' = true /\
    state st1 = working /\ state st2 = completed /\
    exists earlier d, saves w' = earlier ++ [d] /\ status (task d) = st2.
Proof.
  apply (proj2 (forced_final_event_lost sample_clock accept_all)
           (sample_request (Some (IdNumber 1))) (IdNumber 1) empty_world None).
  - reflexivity.
  - reflexivity.
  - reflexivity.
Defined.

(** With a [null] request id nothing is given to the stream at all: the
    handler's status update is applied and saved, [createSuccessResponse]
    throws in the loop and again in the [catch] block, after the failure
    status has been saved. *)
Lemma stream_null_id_no_event :
  let run :=
    taskSendSubscribe sample_clock working_only_handler accept_all
      (sample_request None) empty_world in
  saved_states (snd run) = [submitted; working; failed] /\
  sent (snd run) = [] /\
  written (snd run) = [] /\
  fst run = Returned (Threw (A2A (internalError
                       "Cannot create a success response with a null ID"))).
Proof. vm_compute. repeat split. Qed.

(** With a [null] request id and a handler that ends without yielding, the
    forced [completed] status is applied and saved, and no final event is
    given to the stream: [createSuccessResponse] throws, the [catch] block
    saves a [failed] status and throws in turn. *)
Lemma forced_finalization_null_id :
  let run :=
    taskSendSubscribe sample_clock (fun _ => Done) accept_all
      (sample_request None) empty_world in
  saved_states (snd run) = [submitted; completed; failed] /\
  sent (snd run) = [] /\
  written (snd run) = [] /\
  fst run = Returned (Threw (A2A (internalError
                       "Cannot create a success response with a null ID"))).
Proof. vm_compute. repeat split. Qed.


(** * Further properties of the code *)

(** ** The update model *)

(** X1.  An update never removes or changes an entry of history and adds at most
    one; it never changes the id, the session id or the metadata of the
    task; and a value that is not a status update leaves history and status
    as they are. *)
Theorem update_keeps_history_and_identity (now : Timestamp) (d : TaskAndHistory)
    (update : TaskYieldUpdate) :
  let d' := applyUpdateToTaskAndHistory now d update in
  (exists added, history d' = history d ++ added /\ (length added <= 1)%nat) /\
  id (task d') = id (task d) /\
  sessionId (task d') = sessionId (task d) /\
  metadata (task d') = metadata (task d) /\
  (isTaskStatusUpdate update = false ->
   history d' = history d /\ status (task d') = status (task d)).
Proof.
  destruct update as [u | a | v]; unfold applyUpdateToTaskAndHistory; cbn.
  - split.
    + destruct (agent_message (u_message u)) as [msg|].
      * exists [msg]. split; [reflexivity | simpl; lia].
      * exists []. split; [now rewrite app_nil_r | simpl; lia].
    + repeat split; discriminate.
  - split; [exists []; split; [now rewrite app_nil_r | simpl; lia]|].
    repeat split.
  - split; [exists []; split; [now rewrite app_nil_r | simpl; lia]|].
    repeat split.
Qed.

Lemma apply_artifact_or_empty now d a :
  artifacts_or_empty (applyUpdateToTaskAndHistory now d (ArtifactValue a))
  = applyArtifact (artifacts_or_empty d) a.
Proof. reflexivity. Qed.

(** X3.  With [append: true] and an index within bounds, the artifact at that
    offset keeps its name and index and gets the update's parts after its
    own; the other offsets and the length of the list are unchanged. *)
Theorem artifact_append_in_bounds (arts : list Artifact) (update old : Artifact) (i : nat) :
  index update = Some (Z.of_nat i) ->
  arts !! i = Some old ->
  append update = Some true ->
  exists merged,
    applyArtifact arts update !! i = Some merged /\
    parts merged = parts old ++ parts update /\
    name merged = name old /\ index merged = index old /\
    length (applyArtifact arts update) = length arts /\
    (forall j, j <> i -> applyArtifact arts update !! j = arts !! j).
Proof.
  intros Hidx Hold Happ.
  assert (Hlt : (i < length arts)%nat) by (eapply lookup_lt_Some; eassumption).
  assert (Heq : applyArtifact arts update = <[i := appendedArtifact old update]> arts).
  { unfold applyArtifact. rewrite Hidx.
    replace (0 <=? Z.of_nat i) with true by (symmetry; apply Z.leb_le; lia).
    replace (Z.of_nat i <? Z.of_nat (length arts)) with true
      by (symmetry; apply Z.ltb_lt; lia).
    simpl. now rewrite Nat2Z.id, Hold, Happ. }
  rewrite Heq. exists (appendedArtifact old update). repeat split.
  - now apply list_lookup_insert_eq.
  - apply length_insert.
  - intros j Hj. now apply list_lookup_insert_ne.
Qed.

Lemma artifact_append_in_bounds_witness :
  exists merged,
    applyArtifact [text_artifact (Some 0) (Some "log") "A"]
      {| name := None; description := None; parts := [TextPart "B"]; index := Some 0;
         append := Some true; lastChunk := Some true; a_metadata := None |} !! 0%nat
      = Some merged /\
    parts merged = [TextPart "A"] ++ [TextPart "B"] /\
    name merged = Some "log".
Proof.
  destruct (artifact_append_in_bounds [text_artifact (Some 0) (Some "log") "A"]
              {| name := None; description := None; parts := [TextPart "B"];
                 index := Some 0; append := Some true; lastChunk := Some true;
                 a_metadata := None |}
              (text_artifact (Some 0) (Some "log") "A") 0%nat)
    as (merged & Hm & Hparts & Hname & _).
  - reflexivity.
  - reflexivity.
  - reflexivity.
  - exists merged. repeat split; assumption.
Defined.

Lemma obj_get_absent (k : string) (m : list (string * JSON)) :
  ~ In k (map fst m) -> obj_get k m = None.
Proof.
  induction m as [|[k1 v1] rest IH]; simpl; [reflexivity|].
  intros Hnot. rewrite IH by tauto.
  destruct (String.eqb_spec k1 k); [|reflexivity]. subst. tauto.
Qed.

Lemma obj_set_keys (k : string) (v : JSON) (m : list (string * JSON)) :
  forall k', In k' (map fst (obj_set k v m)) <-> k' = k \/ In k' (map fst m).
Proof.
  induction m as [|[k1 v1] rest IH]; intros k'; simpl.
  - split; intros [E | []]; left; congruence.
  - destruct (String.eqb_spec k1 k); simpl.
    + subst. split; [tauto|]. intros [-> | Hin]; [now left | exact Hin].
    + rewrite IH. tauto.
Qed.

Lemma obj_set_NoDup (k : string) (v : JSON) (m : list (string * JSON)) :
  List.NoDup (map fst m) -> List.NoDup (map fst (obj_set k v m)).
Proof.
  induction m as [|[k1 v1] rest IH]; simpl; intros Hnd.
  - constructor; [intros [] | constructor].
  - inversion Hnd as [|? ? Hnot Hrest]; subst.
    destruct (String.eqb_spec k1 k); simpl.
    + now constructor.
    + constructor; [|now apply IH].
      rewrite obj_set_keys. intros [-> | Hin]; tauto.
Qed.

Lemma obj_get_set (k k' : string) (v : JSON) (m : list (string * JSON)) :
  List.NoDup (map fst m) ->
  obj_get k (obj_set k' v m) = if String.eqb k' k then Some v else obj_get k m.
Proof.
  induction m as [|[k1 v1] rest IH]; simpl; intros Hnd.
  - reflexivity.
  - inversion Hnd as [|? ? Hnot Hrest]; subst.
    destruct (String.eqb_spec k1 k') as [-> | Hne]; simpl.
    + destruct (String.eqb_spec k' k) as [-> | Hk].
      * now rewrite (obj_get_absent k rest Hnot).
      * reflexivity.
    + rewrite (IH Hrest).
      destruct (String.eqb_spec k' k) as [-> | Hk]; [|reflexivity].
      destruct (String.eqb_spec k1 k); [congruence | reflexivity].
Qed.

Lemma obj_spread_get (k : string) (b : list (string * JSON)) :
  forall a, List.NoDup (map fst a) ->
    obj_get k (obj_spread a b) =
      match obj_get k b with Some v => Some v | None => obj_get k a end.
Proof.
  unfold obj_spread.
  induction b as [|[k1 v1] rest IH]; simpl; intros a Hnd.
  - reflexivity.
  - rewrite (IH _ (obj_set_NoDup k1 v1 a Hnd)).
    destruct (obj_get k rest); [reflexivity|].
    rewrite (obj_get_set k k1 v1 a Hnd).
    now destruct (String.eqb k1 k).
Qed.

(** X4.  The metadata of an appended artifact: a key the update has takes the
    update's value, any other key keeps the value it had. *)
Theorem appended_metadata_lookup (old update : Artifact)
    (stored given : Metadata) (k : string) :
  a_metadata old = Some stored ->
  List.NoDup (map fst stored) ->
  a_metadata update = Some given ->
  exists merged,
    a_metadata (appendedArtifact old update) = Some merged /\
    obj_get k merged =
      match obj_get k given with Some v => Some v | None => obj_get k stored end.
Proof.
  intros Hold Hnd Hupd. unfold appendedArtifact. simpl. rewrite Hupd, Hold.
  eexists. split; [reflexivity|]. now apply obj_spread_get.
Qed.

Lemma appended_metadata_lookup_witness :
  exists merged,
    a_metadata
      (appendedArtifact
         {| name := None; description := None; parts := []; index := Some 0;
            append := None; lastChunk := None;
            a_metadata := Some [("lang", JString "en"); ("rows", JNumber 1)] |}
         {| name := None; description := None; parts := []; index := Some 0;
            append := Some true; lastChunk := None;
            a_metadata := Some [("rows", JNumber 2)] |}) = Some merged /\
    obj_get "rows" merged = Some (JNumber 2).
Proof.
  apply (appended_metadata_lookup
           {| name := None; description := None; parts := []; index := Some 0;
              append := None; lastChunk := None;
              a_metadata := Some [("lang", JString "en"); ("rows", JNumber 1)] |}
           {| name := None; description := None; parts := []; index := Some 0;
              append := Some true; lastChunk := None;
              a_metadata := Some [("rows", JNumber 2)] |}
           [("lang", JString "en"); ("rows", JNumber 1)] [("rows", JNumber 2)] "rows").
  - reflexivity.
  - repeat constructor; simpl; intros Hin; repeat destruct Hin as [Hin | Hin];
      try discriminate Hin; exact Hin.
  - reflexivity.
Defined.

Lemma findIndex_Some {A : Type} (p : A -> bool) (l : list A) (i : nat) :
  findIndex p l = Some i ->
  (exists x, l !! i = Some x /\ p x = true) /\
  (forall j y, (j < i)%nat -> l !! j = Some y -> p y = false).
Proof.
  revert i. induction l as [|x rest IH]; simpl; intros i Hfind; [discriminate|].
  destruct (p x) eqn:Hp.
  - injection Hfind as <-. split; [eauto|]. intros j y Hj. lia.
  - destruct (findIndex p rest) as [i'|]; [|discriminate].
    injection Hfind as <-. destruct (IH i' eq_refl) as [Hat Hbefore].
    split; [exact Hat|].
    intros [|j] y Hj Hy; simpl in Hy.
    + now injection Hy as <-.
    + apply (Hbefore j y); [lia | exact Hy].
Qed.

(** X2.  An artifact update changes at most one entry of the artifacts
    list.  Either it replaces the entry at one offset, by the update itself
    or by the entry with the update appended, and every other offset is
    kept; or it keeps every entry and adds the update, the new list being a
    permutation of the former entries and the update. *)
Theorem artifact_update_one_entry (now : Timestamp) (d : TaskAndHistory) (a : Artifact) :
  let arts := artifacts_or_empty d in
  let arts' := artifacts_or_empty (applyUpdateToTaskAndHistory now d (ArtifactValue a)) in
  (exists i old new,
     arts !! i = Some old /\ arts' = <[i := new]> arts /\
     (new = a \/ new = appendedArtifact old a)) \/
  Permutation arts' (arts ++ [a]).
Proof.
  intros arts arts'. subst arts'. rewrite apply_artifact_or_empty. fold arts.
  unfold applyArtifact.
  assert (Hpushed :
    Permutation
      (if existsb (fun x => match index x with Some _ => true | None => false end)
            (arts ++ [a])
       then sort_by_index (arts ++ [a]) else arts ++ [a])
      (arts ++ [a])).
  { destruct (existsb _ (arts ++ [a])); [|reflexivity].
    symmetry. apply sort_by_index_perm. }
  destruct ((0 <=? _) && (_ <? Z.of_nat (length arts))).
  - destruct (arts !! Z.to_nat _) as [old|] eqn:Hold.
    + left. exists (Z.to_nat (match index a with Some i => i | None => -1 end)), old.
      destruct (append a) as [[|]|]; eexists; split; try exact Hold; split; eauto.
    + right. exact Hpushed.
  - destruct (truthy (name a)).
    + destruct (findIndex _ arts) as [i|] eqn:Hfound.
      * left. destruct (findIndex_Some _ _ _ Hfound) as [(old & Hold & _) _].
        exists i, old, a. auto.
      * right. exact Hpushed.
    + right. exact Hpushed.
Qed.

(** X5.  An update whose index is absent or out of bounds and whose name is not
    empty replaces the first artifact that has this name, where there is
    one: the offset found holds the update afterwards, no earlier artifact
    had the name, and the list is neither extended nor sorted. *)
Theorem artifact_replaced_by_name (arts : list Artifact) (update : Artifact) (i : nat) :
  (forall z, index update = Some z -> z < 0 \/ Z.of_nat (length arts) <= z) ->
  truthy (name update) = true ->
  findIndex (same_name (name update)) arts = Some i ->
  applyArtifact arts update = <[i := update]> arts /\
  (exists old, arts !! i = Some old /\ name old = name update) /\
  (forall j a, (j < i)%nat -> arts !! j = Some a -> name a <> name update).
Proof.
  intros Hidx Hname Hfind. split; [|split].
  - unfold applyArtifact.
    assert (Hout : (0 <=? match index update with Some z => z | None => -1 end)
                   && (match index update with Some z => z | None => -1 end
                       <? Z.of_nat (length arts)) = false).
    { destruct (index update) as [z|]; [|reflexivity].
      destruct (Hidx z eq_refl) as [Hneg|Hbig]; apply andb_false_iff.
      - left. now apply Z.leb_gt.
      - right. now apply Z.ltb_ge. }
    now rewrite Hout, Hname, Hfind.
  - destruct (findIndex_Some _ _ _ Hfind) as [(old & Hat & Hsame) _].
    exists old. split; [exact Hat|].
    unfold same_name in Hsame.
    destruct (name old) as [x|]; [|discriminate].
    destruct (name update) as [y|]; [|discriminate].
    apply String.eqb_eq in Hsame. now subst.
  - intros j a Hj Hat Heq.
    destruct (findIndex_Some _ _ _ Hfind) as [_ Hbefore].
    specialize (Hbefore j a Hj Hat). unfold same_name in Hbefore.
    rewrite Heq in Hbefore.
    destruct (name update) as [y|]; [|discriminate Hname].
    now rewrite String.eqb_refl in Hbefore.
Qed.

Lemma artifact_replaced_by_name_witness :
  applyArtifact [text_artifact None (Some "a") "1"; text_artifact None (Some "b") "2"]
    (text_artifact None (Some "b") "3")
  = [text_artifact None (Some "a") "1"; text_artifact None (Some "b") "3"].
Proof.
  apply (artifact_replaced_by_name
           [text_artifact None (Some "a") "1"; text_artifact None (Some "b") "2"]
           (text_artifact None (Some "b") "3") 1%nat).
  - discriminate.
  - reflexivity.
  - reflexivity.
Defined.

Lemma insert_by_index_filter (k : Z) (a : Artifact) (l : list Artifact) :
  List.filter (fun x => index_or_0 x =? k) (insert_by_index a l)
  = (if index_or_0 a =? k then [a] else [])
    ++ List.filter (fun x => index_or_0 x =? k) l.
Proof.
  induction l as [|b rest IH]; simpl.
  - now destruct (index_or_0 a =? k).
  - destruct (index_or_0 a <=? index_or_0 b) eqn:Hle; simpl.
    + now destruct (index_or_0 a =? k).
    + rewrite IH. apply Z.leb_gt in Hle.
      destruct (Z.eqb_spec (index_or_0 a) k) as [Ha|Ha]; [|reflexivity].
      destruct (Z.eqb_spec (index_or_0 b) k) as [Hb|Hb]; [lia | reflexivity].
Qed.

(** X6.  The sort is stable: artifacts with the same index, an absent index
    counting as 0, keep the order they had before the sort. *)
Theorem sort_by_index_stable (k : Z) (l : list Artifact) :
  List.filter (fun x => index_or_0 x =? k) (sort_by_index l)
  = List.filter (fun x => index_or_0 x =? k) l.
Proof.
  induction l as [|a rest IH]; simpl; [reflexivity|].
  rewrite insert_by_index_filter, IH.
  now destruct (index_or_0 a =? k).
Qed.

(** X7.  A list that is in ascending order of index is returned by the sort as
    it is. *)
Theorem sort_by_index_of_sorted (l : list Artifact) :
  StronglySorted index_le l -> sort_by_index l = l.
Proof.
  induction 1 as [|a rest Hsorted IH Hall]; simpl; [reflexivity|].
  rewrite IH. destruct rest as [|b rest']; simpl; [reflexivity|].
  inversion Hall as [|? ? Hab _]; subst. unfold index_le in Hab.
  now replace (index_or_0 a <=? index_or_0 b) with true
    by (symmetry; apply Z.leb_le; exact Hab).
Qed.

Lemma sort_by_index_of_sorted_witness :
  sort_by_index [text_artifact None None "x"; text_artifact (Some 0) None "y";
                 text_artifact (Some 4) None "z"]
  = [text_artifact None None "x"; text_artifact (Some 0) None "y";
     text_artifact (Some 4) None "z"].
Proof.
  apply sort_by_index_of_sorted.
  repeat constructor; unfold index_le; vm_compute; discriminate.
Defined.

(** ** The lifecycle controller *)

Lemma TaskState_eqb_true (a b : TaskState) : TaskState_eqb a b = true -> a = b.
Proof. destruct a, b; simpl; intros E; try reflexivity; discriminate E. Qed.

Section LifecycleMore.

Context {S : Type} `{ReliableStore S}.
Variable clock : nat -> Timestamp.

(** X8.  For an id the store does not know, [loadOrCreateTaskAndHistory] creates
    the task in state [submitted] with no status message, no artifacts, the
    given metadata or an empty object, and a history holding the incoming
    message alone; it saves that snapshot, and a [load] of the id gives it
    back. *)
Theorem new_task_created (w : World) (taskId : string) (incoming : Message)
    (sessionId : option string) (metadata : option Metadata) :
  load (taskStore w) taskId = inr None ->
  let created :=
    {| task := {| id := taskId; sessionId := sessionId;
                  status := {| state := submitted; message := Null;
                               timestamp := clock (ticks w) |};
                  artifacts := Some [];
                  metadata := Some (match metadata with Some m => m | None => [] end) |};
       history := [incoming] |} in
  exists w',
    loadOrCreateTaskAndHistory clock taskId incoming sessionId metadata w
      = (Returned created, w') /\
    saves w' = saves w ++ [created] /\
    load (taskStore w') taskId = inr (Some created) /\
    activeCancellations w' = activeCancellations w.
Proof.
  intros Hload created. unfold loadOrCreateTaskAndHistory. eff_unfold.
  rewrite Hload. cbv beta iota. rewrite taskStore_save_reliable.
  eexists. split; [reflexivity|]. cbn [saves taskStore activeCancellations].
  repeat split. apply (load_put (taskStore w) created).
Qed.

(** What becomes of a stored task when a new message arrives. *)
Lemma loadOrCreate_existing (w : World) (taskId : string) (incoming : Message)
    (sessionId : option string) (metadata : option Metadata) (data : TaskAndHistory) :
  load (taskStore w) taskId = inr (Some data) ->
  let received := {| task := task data; history := history data ++ [incoming] |} in
  let snapshot :=
    if includes finalStates (state (status (task data))) then
      applyUpdateToTaskAndHistory (clock (ticks w)) received
        (StatusValue {| u_state := submitted; u_message := Some Null;
                        u_timestamp := None |})
    else if TaskState_eqb (state (status (task data))) input_required then
      applyUpdateToTaskAndHistory (clock (ticks w)) received
        (StatusValue {| u_state := working; u_message := None; u_timestamp := None |})
    else received in
  exists w',
    loadOrCreateTaskAndHistory clock taskId incoming sessionId metadata w
      = (Returned snapshot, w') /\
    saves w' = saves w ++ [snapshot] /\
    taskStore w' = put (taskStore w) snapshot /\
    activeCancellations w' = activeCancellations w.
Proof.
  intros Hload received snapshot. unfold loadOrCreateTaskAndHistory. eff_unfold.
  rewrite Hload. cbv beta iota. cbn [task status state]. subst snapshot.
  destruct (includes finalStates (state (status (task data)))).
  - rewrite taskStore_save_reliable. eexists. split; [reflexivity|].
    cbn [saves taskStore activeCancellations]. repeat split.
  - destruct (TaskState_eqb (state (status (task data))) input_required).
    + rewrite taskStore_save_reliable. eexists. split; [reflexivity|].
      cbn [saves taskStore activeCancellations]. repeat split.
    + rewrite taskStore_save_reliable. eexists. split; [reflexivity|].
      cbn [saves taskStore activeCancellations]. repeat split.
Qed.

(** X9.  Whatever the state of a stored task, a new message is recorded: the
    returned history is the stored one followed by the message, the id,
    session id, artifacts and metadata are the stored ones (the session id
    and metadata of the request are not used), and the snapshot returned is
    saved, once. *)
Theorem existing_task_message_recorded (w : World) (taskId : string)
    (incoming : Message) (session : option string) (meta : option Metadata)
    (data : TaskAndHistory) :
  load (taskStore w) taskId = inr (Some data) ->
  exists snapshot w',
    loadOrCreateTaskAndHistory clock taskId incoming session meta w
      = (Returned snapshot, w') /\
    history snapshot = history data ++ [incoming] /\
    id (task snapshot) = id (task data) /\
    sessionId (task snapshot) = sessionId (task data) /\
    artifacts (task snapshot) = artifacts (task data) /\
    metadata (task snapshot) = metadata (task data) /\
    saves w' = saves w ++ [snapshot] /\
    load (taskStore w') (id (task snapshot)) = inr (Some snapshot).
Proof.
  intros Hload.
  destruct (loadOrCreate_existing w taskId incoming session meta data Hload)
    as (w' & Hrun & Hsaves & Hstore & _).
  eexists. exists w'. split; [exact Hrun|].
  split; [|split; [|split; [|split; [|split; [|split; [exact Hsaves|]]]]]].
  6: { rewrite Hstore. apply load_put. }
  all: destruct (includes finalStates (state (status (task data))));
    [reflexivity|];
    destruct (TaskState_eqb (state (status (task data))) input_required); reflexivity.
Qed.

(** X10.  The transitions a new message causes: a task waiting for input goes to
    [working] and keeps its status message; a task in any state other than
    completed, failed, canceled and input-required keeps its whole status,
    timestamp included. *)
Theorem existing_task_transition (w : World) (taskId : string)
    (incoming : Message) (sessionId : option string) (metadata : option Metadata)
    (data : TaskAndHistory) :
  load (taskStore w) taskId = inr (Some data) ->
  ~ is_closed (state (status (task data))) ->
  exists snapshot w',
    loadOrCreateTaskAndHistory clock taskId incoming sessionId metadata w
      = (Returned snapshot, w') /\
    (state (status (task data)) = input_required ->
     state (status (task snapshot)) = working /\
     message (status (task snapshot)) = message (status (task data)) /\
     timestamp (status (task snapshot)) = clock (ticks w) /\
     ticks w' = Datatypes.S (ticks w)) /\
    (state (status (task data)) <> input_required ->
     status (task snapshot) = status (task data) /\ ticks w' = ticks w).
Proof.
  intros Hload Hopen.
  assert (Hinc : includes finalStates (state (status (task data))) = false).
  { destruct (state (status (task data))) eqn:E; try reflexivity;
      exfalso; apply Hopen; unfold is_closed; rewrite ?E; auto. }
  unfold loadOrCreateTaskAndHistory. eff_unfold.
  rewrite Hload. cbv beta iota. cbn [task status state]. rewrite Hinc.
  destruct (TaskState_eqb (state (status (task data))) input_required) eqn:Eq.
  - rewrite taskStore_save_reliable. do 2 eexists. split; [reflexivity|].
    split; [intros _; repeat split | intros Hne].
    apply TaskState_eqb_true in Eq. contradiction.
  - rewrite taskStore_save_reliable. do 2 eexists. split; [reflexivity|].
    split; [intros Hir | intros _; split; reflexivity].
    rewrite Hir in Eq. discriminate Eq.
Qed.

End LifecycleMore.

Lemma new_task_created_witness :
  exists w',
    loadOrCreateTaskAndHistory sample_clock "t9" (user_says "m1") (Some "s1") None
      empty_world
    = (Returned
         {| task := {| id := "t9"; sessionId := Some "s1";
                       status := {| state := submitted; message := Null;
                                    timestamp := sample_clock 0 |};
                       artifacts := Some []; metadata := Some [] |};
            history := [user_says "m1"] |}, w') /\
    saves w' = [] ++
      [{| task := {| id := "t9"; sessionId := Some "s1";
                     status := {| state := submitted; message := Null;
                                  timestamp := sample_clock 0 |};
                     artifacts := Some []; metadata := Some [] |};
          history := [user_says "m1"] |}] /\
    load (taskStore w') "t9" =
      inr (Some {| task := {| id := "t9"; sessionId := Some "s1";
                              status := {| state := submitted; message := Null;
                                           timestamp := sample_clock 0 |};
                              artifacts := Some []; metadata := Some [] |};
                   history := [user_says "m1"] |}) /\
    activeCancellations w' = ∅.
Proof.
  apply (new_task_created sample_clock empty_world "t9" (user_says "m1") (Some "s1") None).
  reflexivity.
Defined.

Lemma existing_task_message_recorded_witness :
  exists snapshot w',
    loadOrCreateTaskAndHistory sample_clock "t1" (user_says "m4") (Some "other") None
      (sample_world (sample_data working Null [user_says "m1"]))
    = (Returned snapshot, w') /\
    history snapshot = [user_says "m1"] ++ [user_says "m4"] /\
    id (task snapshot) = "t1" /\
    sessionId (task snapshot) = None /\
    artifacts (task snapshot) = Some [] /\
    metadata (task snapshot) = Some [] /\
    saves w' = [] ++ [snapshot] /\
    load (taskStore w') (id (task snapshot)) = inr (Some snapshot).
Proof.
  apply (existing_task_message_recorded sample_clock
           (sample_world (sample_data working Null [user_says "m1"]))
           "t1" (user_says "m4") (Some "other") None
           (sample_data working Null [user_says "m1"])).
  reflexivity.
Defined.

Lemma existing_task_transition_witness :
  exists snapshot w',
    loadOrCreateTaskAndHistory sample_clock "t1" (user_says "answer") None None
      (sample_world (sample_data input_required (Value (agent_says "which one?")) []))
    = (Returned snapshot, w') /\
    state (status (task snapshot)) = working /\
    message (status (task snapshot)) = Value (agent_says "which one?").
Proof.
  destruct (existing_task_transition sample_clock
              (sample_world (sample_data input_required (Value (agent_says "which one?")) []))
              "t1" (user_says "answer") None None
              (sample_data input_required (Value (agent_says "which one?")) []))
    as (snapshot & w' & Hrun & Hinput & _).
  - reflexivity.
  - intros [E | [E | E]]; discriminate E.
  - exists snapshot, w'. destruct (Hinput eq_refl) as (Hs & Hm & _).
    repeat split; assumption.
Defined.

Section StoreFailure.

Context {S : Type} `{TaskStore S}.
Variable clock : nat -> Timestamp.

(** X11.  When the store throws on [load], [loadOrCreateTaskAndHistory] throws the
    same error and nothing has been done; when it throws on every [save],
    the call throws that error after the one attempt, and the store holds
    what it held. *)
Theorem loadOrCreate_store_down (w : World) (taskId : string) (incoming : Message)
    (session : option string) (meta : option Metadata) (e : Exn) :
  (load (taskStore w) taskId = inl e ->
   loadOrCreateTaskAndHistory clock taskId incoming session meta w = (Threw e, w)) /\
  (forall loaded,
     load (taskStore w) taskId = inr loaded ->
     (forall d, save (taskStore w) d = inl e) ->
     exists w',
       loadOrCreateTaskAndHistory clock taskId incoming session meta w = (Threw e, w') /\
       taskStore w' = taskStore w /\
       length (saves w') = Datatypes.S (length (saves w))).
Proof.
  split.
  - intros Hload. unfold loadOrCreateTaskAndHistory. eff_unfold. now rewrite Hload.
  - intros loaded Hload Hsave. unfold loadOrCreateTaskAndHistory, taskStore_save.
    eff_unfold. rewrite Hload. cbv beta iota.
    destruct loaded as [data|].
    + cbn [task status state].
      destruct (includes finalStates (state (status (task data)))).
      * cbn [snd taskStore]. rewrite Hsave. eexists. split; [reflexivity|].
        cbn [taskStore saves]. rewrite length_app. simpl. split; [reflexivity | lia].
      * destruct (TaskState_eqb (state (status (task data))) input_required).
        -- cbn [snd taskStore]. rewrite Hsave. eexists. split; [reflexivity|].
           cbn [taskStore saves]. rewrite length_app. simpl. split; [reflexivity | lia].
        -- rewrite Hsave. eexists. split; [reflexivity|].
           cbn [taskStore saves]. rewrite length_app. simpl. split; [reflexivity | lia].
    + cbn [taskStore]. rewrite Hsave. eexists. split; [reflexivity|].
      cbn [taskStore saves]. rewrite length_app. simpl. split; [reflexivity | lia].
Qed.

(** X12.  [taskGet] never changes the store, the cancellation flags or anything
    else, whatever it returns or throws. *)
Theorem taskGet_reads_only (req : GetTaskRequest) (w : World) :
  snd (taskGet req w) = w.
Proof.
  unfold taskGet. destruct (truthy (g_taskId req)); cbn [negb]; [|reflexivity].
  eff_unfold. destruct (load (taskStore w) _) as [e | [data|]]; try reflexivity.
  destruct (id_truthy (g_id req)); cbn [negb]; [|reflexivity].
  destruct (g_id req); reflexivity.
Qed.

(** X13.  [taskGet] with a task id: an unknown id gives [TaskNotFound] whatever the
    request id; for a stored task the snapshot is returned as stored when
    the request id is truthy, and a request id that is [null], [0] or the
    empty string gives [InvalidParams], "Missing request ID.". *)
Theorem taskGet_result (req : GetTaskRequest) (w : World) (taskId : string)
    (loaded : option TaskAndHistory) :
  g_taskId req = Some taskId -> taskId <> "" ->
  load (taskStore w) taskId = inr loaded ->
  fst (taskGet req w) =
    match loaded with
    | None => Threw (A2A (taskNotFound taskId))
    | Some data =>
        match g_id req with
        | Some (IdString "") | Some (IdNumber 0) | None =>
            Threw (A2A (invalidParams "Missing request ID."))
        | Some rid =>
            Returned {| r_jsonrpc := "2.0"; r_id := rid; r_result := data |}
        end
    end.
Proof.
  intros Hid Hne Hload. unfold taskGet. rewrite Hid. cbn [truthy].
  destruct (String.eqb_spec taskId "") as [E|_]; [contradiction|]. cbn [negb].
  eff_unfold. rewrite Hload. cbv beta iota.
  destruct loaded as [data|]; [|reflexivity].
  destruct (g_id req) as [[s | n]|]; cbn [id_truthy]; [| |reflexivity].
  - destruct s as [|c s']; reflexivity.
  - destruct n; reflexivity.
Qed.

(** X14.  [taskCancel] for an id the store does not know throws [TaskNotFound]
    with that id as context and changes nothing: no flag is set. *)
Theorem cancel_unknown_task (req : CancelTaskRequest) (w : World) :
  load (taskStore w) (c_taskId req) = inr None ->
  taskCancel clock req w = (Threw (A2A (taskNotFound (c_taskId req))), w) /\
  e_taskId (taskNotFound (c_taskId req)) = Some (c_taskId req) /\
  code (taskNotFound (c_taskId req)) = TaskNotFound.
Proof.
  intros Hload. unfold taskCancel. eff_unfold. rewrite Hload. repeat split.
Qed.

End StoreFailure.

Lemma taskGet_result_witness :
  fst (taskGet {| g_id := Some (IdNumber 0); g_taskId := Some "t1" |}
         (sample_world (sample_data working Null [user_says "m1"])))
  = Threw (A2A (invalidParams "Missing request ID.")).
Proof.
  apply (taskGet_result {| g_id := Some (IdNumber 0); g_taskId := Some "t1" |}
           (sample_world (sample_data working Null [user_says "m1"])) "t1"
           (Some (sample_data working Null [user_says "m1"]))).
  - reflexivity.
  - discriminate.
  - reflexivity.
Defined.

Lemma cancel_unknown_task_witness :
  taskCancel sample_clock (cancel_request (Some (IdNumber 3))) empty_world
  = (Threw (A2A (taskNotFound "t1")), empty_world).
Proof.
  apply (cancel_unknown_task sample_clock (cancel_request (Some (IdNumber 3))) empty_world).
  reflexivity.
Defined.

Lemma loadOrCreate_store_down_witness :
  exists w',
    loadOrCreateTaskAndHistory sample_clock "t1" (user_says "m2") None None
      (read_only_world (sample_data working Null [user_says "m1"]))
    = (Threw (JsError "store unavailable"), w') /\
    taskStore w' = taskStore (read_only_world (sample_data working Null [user_says "m1"])) /\
    length (saves w') = 1%nat.
Proof.
  apply (proj2 (loadOrCreate_store_down sample_clock
                  (read_only_world (sample_data working Null [user_says "m1"]))
                  "t1" (user_says "m2") None None (JsError "store unavailable"))
           (Some (sample_data working Null [user_says "m1"]))).
  - reflexivity.
  - intros d. reflexivity.
Defined.

Section CancelMore.

Context {S : Type} `{ReliableStore S}.
Variable clock : nat -> Timestamp.

Lemma cancel_open_run (w : World) (req : CancelTaskRequest) (data : TaskAndHistory)
    (rid : RequestId) :
  load (taskStore w) (c_taskId req) = inr (Some data) ->
  ~ is_closed (state (status (task data))) ->
  c_id req = Some rid ->
  exists canceled_data w',
    taskCancel clock req w =
      (Returned {| r_jsonrpc := "2.0"; r_id := rid; r_result := inr canceled_data |}, w') /\
    state (status (task canceled_data)) = canceled /\
    message (status (task canceled_data)) = Value cancel_message /\
    history canceled_data = history data ++ [cancel_message] /\
    artifacts (task canceled_data) = artifacts (task data) /\
    saves w' = saves w ++ [canceled_data] /\
    load (taskStore w') (id (task canceled_data)) = inr (Some canceled_data) /\
    activeCancellations w' = activeCancellations w ∖ {[c_taskId req]}.
Proof.
  intros Hload Hopen Hrid.
  assert (Hinc : includes finalStates (state (status (task data))) = false).
  { destruct (state (status (task data))) eqn:E; try reflexivity;
      exfalso; apply Hopen; unfold is_closed; rewrite ?E; auto. }
  unfold taskCancel. eff_unfold. rewrite Hload. cbv beta iota. rewrite Hinc.
  cbv beta iota. rewrite taskStore_save_reliable. cbv beta iota. rewrite Hrid.
  do 2 eexists. split; [reflexivity|].
  cbn [saves taskStore activeCancellations snd].
  repeat split.
  - apply load_put.
  - apply set_eq. intros x. rewrite !elem_of_difference, elem_of_union.
    rewrite elem_of_singleton. tauto.
Qed.

(** X15.  [taskCancel] on a stored task that is not completed, failed or canceled,
    with a request id that is not [null]: the response carries the whole
    snapshot (task and history), in state [canceled], with the cancellation
    message as status message and as last entry of history; that snapshot is
    saved; and afterwards the task id is not among the cancellation flags,
    the flags of other tasks being as before. *)
Theorem cancel_open_task (w : World) (req : CancelTaskRequest) (data : TaskAndHistory)
    (rid : RequestId) :
  load (taskStore w) (c_taskId req) = inr (Some data) ->
  ~ is_closed (state (status (task data))) ->
  c_id req = Some rid ->
  exists canceled_data w',
    taskCancel clock req w =
      (Returned {| r_jsonrpc := "2.0"; r_id := rid; r_result := inr canceled_data |}, w') /\
    state (status (task canceled_data)) = canceled /\
    message (status (task canceled_data)) = Value cancel_message /\
    history canceled_data = history data ++ [cancel_message] /\
    artifacts (task canceled_data) = artifacts (task data) /\
    saves w' = saves w ++ [canceled_data] /\
    load (taskStore w') (id (task canceled_data)) = inr (Some canceled_data) /\
    activeCancellations w' = activeCancellations w ∖ {[c_taskId req]}.
Proof. exact (cancel_open_run w req data rid). Qed.

(** X16.  Cancelling twice: after a cancel that went through, a second cancel of
    the same task (stored under the id it is asked by) finds it canceled,
    returns the task of the first response and writes nothing. *)
Theorem cancel_twice (w : World) (req : CancelTaskRequest) (data : TaskAndHistory)
    (rid : RequestId) :
  load (taskStore w) (c_taskId req) = inr (Some data) ->
  id (task data) = c_taskId req ->
  ~ is_closed (state (status (task data))) ->
  c_id req = Some rid ->
  exists canceled_data w',
    taskCancel clock req w =
      (Returned {| r_jsonrpc := "2.0"; r_id := rid; r_result := inr canceled_data |}, w') /\
    taskCancel clock req w' =
      (Returned {| r_jsonrpc := "2.0"; r_id := rid;
                   r_result := inl (task canceled_data) |}, w').
Proof.
  intros Hload Hid Hopen Hrid.
  destruct (cancel_open_run w req data rid Hload Hopen Hrid)
    as (cd & w' & Hrun & Hstate & _ & _ & _ & _ & Hstored & _).
  exists cd, w'. split; [exact Hrun|].
  assert (Hcid : id (task cd) = c_taskId req).
  { unfold taskCancel in Hrun. revert Hrun. eff_unfold.
    rewrite Hload. cbv beta iota.
    destruct (includes finalStates (state (status (task data)))) eqn:Hinc.
    - rewrite Hrid. intros Hrun. injection Hrun as Hrun _. discriminate Hrun.
    - cbv beta iota. rewrite taskStore_save_reliable. cbv beta iota. rewrite Hrid.
      intros Hrun. injection Hrun as Hrun _. subst cd. exact Hid. }
  rewrite Hcid in Hstored.
  unfold taskCancel. eff_unfold. rewrite Hstored. cbv beta iota.
  rewrite Hstate. cbn [includes finalStates existsb TaskState_eqb orb].
  now rewrite Hrid.
Qed.

End CancelMore.

Lemma cancel_open_task_witness :
  exists canceled_data w',
    taskCancel sample_clock (cancel_request (Some (IdNumber 7)))
      (sample_world (sample_data working Null [user_says "m1"]))
    = (Returned {| r_jsonrpc := "2.0"; r_id := IdNumber 7;
                   r_result := inr canceled_data |}, w') /\
    state (status (task canceled_data)) = canceled /\
    message (status (task canceled_data)) = Value cancel_message /\
    history canceled_data = [user_says "m1"] ++ [cancel_message] /\
    artifacts (task canceled_data) = Some [] /\
    saves w' = [] ++ [canceled_data] /\
    load (taskStore w') (id (task canceled_data)) = inr (Some canceled_data) /\
    activeCancellations w' = ∅ ∖ {["t1"]}.
Proof.
  apply (cancel_open_task sample_clock
           (sample_world (sample_data working Null [user_says "m1"]))
           (cancel_request (Some (IdNumber 7)))
           (sample_data working Null [user_says "m1"]) (IdNumber 7)).
  - reflexivity.
  - intros [E | [E | E]]; discriminate E.
  - reflexivity.
Defined.

Lemma cancel_twice_witness :
  exists canceled_data w',
    taskCancel sample_clock (cancel_request (Some (IdNumber 7)))
      (sample_world (sample_data input_required Null [user_says "m1"]))
    = (Returned {| r_jsonrpc := "2.0"; r_id := IdNumber 7;
                   r_result := inr canceled_data |}, w') /\
    taskCancel sample_clock (cancel_request (Some (IdNumber 7))) w'
    = (Returned {| r_jsonrpc := "2.0"; r_id := IdNumber 7;
                   r_result := inl (task canceled_data) |}, w').
Proof.
  apply (cancel_twice sample_clock
           (sample_world (sample_data input_required Null [user_says "m1"]))
           (cancel_request (Some (IdNumber 7)))
           (sample_data input_required Null [user_says "m1"]) (IdNumber 7)).
  - reflexivity.
  - reflexivity.
  - intros [E | [E | E]]; discriminate E.
  - reflexivity.
Defined.

(** ** taskSend *)

Section SendProps.

Context {S : Type} `{ReliableStore S}.
Variable clock : nat -> Timestamp.
Variable taskHandler : TaskContext -> Generator.
Variable validateTaskSendParams : SendTaskRequest -> option Exn.

Lemma loadOrCreate_stored (w : World) (taskId : string) (incoming : Message)
    (session : option string) (meta : option Metadata)
    (loaded : option TaskAndHistory) :
  load (taskStore w) taskId = inr loaded ->
  exists data w1,
    loadOrCreateTaskAndHistory clock taskId incoming session meta w
      = (Returned data, w1) /\
    holds_current (data, w1).
Proof.
  intros Hload. unfold loadOrCreateTaskAndHistory, holds_current. eff_unfold.
  rewrite Hload. cbv beta iota.
  destruct loaded as [data|].
  - cbn [task status state].
    destruct (includes finalStates (state (status (task data)))).
    + rewrite taskStore_save_reliable. do 2 eexists. split; [reflexivity|].
      cbn [fst snd taskStore]. apply load_put.
    + destruct (TaskState_eqb (state (status (task data))) input_required).
      * rewrite taskStore_save_reliable. do 2 eexists. split; [reflexivity|].
        cbn [fst snd taskStore]. apply load_put.
      * rewrite taskStore_save_reliable. do 2 eexists. split; [reflexivity|].
        cbn [fst snd taskStore]. apply load_put.
  - rewrite taskStore_save_reliable. do 2 eexists. split; [reflexivity|].
    cbn [fst snd taskStore]. apply load_put.
Qed.

Lemma send_loop_holds (context : TaskContext) (g : Generator) :
  forall s out s',
    send_loop clock context g s = (out, s') ->
    holds_current s -> holds_current s'.
Proof.
  induction g as [| error | yieldValue next IH]; intros [d w] out s' Hrun Hholds.
  - cbn in Hrun. injection Hrun as _ <-. exact Hholds.
  - cbn in Hrun. injection Hrun as _ <-. exact Hholds.
  - cbn [send_loop] in Hrun. unfold applyUpdate in Hrun. cbn [fst snd] in Hrun.
    rewrite taskStore_save_reliable in Hrun.
    apply IH in Hrun; [exact Hrun|].
    unfold holds_current. cbn [fst snd taskStore]. apply load_put.
Qed.

Lemma send_failed_result (req : SendTaskRequest) (error : Exn) (d : TaskAndHistory)
    (w : World) :
  let failed_data :=
    applyUpdateToTaskAndHistory (clock (ticks w)) d
      (StatusValue (createTaskFailureStatusUpdate error)) in
  exists w',
    send_failed clock req error (d, w) =
      (Threw (Normalized error (req_id req) (p_id (params req))), (failed_data, w')) /\
    saves w' = saves w ++ [failed_data] /\
    holds_current (failed_data, w').
Proof.
  intros failed_data. unfold send_failed, applyUpdate. cbn [fst snd].
  rewrite taskStore_save_reliable. eexists. split; [reflexivity|].
  split; [reflexivity|].
  unfold holds_current. cbn [fst snd taskStore]. apply load_put.
Qed.

(** X17.  [taskSend] with valid parameters, over a store that takes the
    writes, runs the loop over the handler on the snapshot that
    [loadOrCreateTaskAndHistory] returned, whatever the request id is, and
    when the loop ends the store holds the last snapshot under its task
    id.  If the loop returned, the call returns in the state the loop left,
    with a response that has the request id and that snapshot as result,
    or with no response for a [null] request id.  If the loop threw, the
    failure status for the error thrown is applied to the last snapshot
    and saved, as status message and as last entry of history, and what
    the call throws is not that error: it is the response that
    [normalizeError] built from the error, the request id and the task
    id. *)
Theorem taskSend_outcome (req : SendTaskRequest) (w : World)
    (loaded : option TaskAndHistory) :
  validateTaskSendParams req = None ->
  load (taskStore w) (p_id (params req)) = inr loaded ->
  exists data w1 out last w2,
    loadOrCreateTaskAndHistory clock (p_id (params req)) (p_message (params req))
      (p_sessionId (params req)) (p_metadata (params req)) w = (Returned data, w1) /\
    (let context :=
       createTaskContext (task data) (p_message (params req)) (history data) w1 in
     send_loop clock context (taskHandler context) (data, w1) = (out, (last, w2))) /\
    load (taskStore w2) (id (task last)) = inr (Some last) /\
    match out with
    | Returned _ =>
        taskSend clock taskHandler validateTaskSendParams req w =
          (Returned match req_id req with
                    | Some rid =>
                        Some {| r_jsonrpc := "2.0"; r_id := rid; r_result := last |}
                    | None => None
                    end, w2)
    | Threw cause =>
        let failed_data :=
          applyUpdateToTaskAndHistory (clock (ticks w2)) last
            (StatusValue (createTaskFailureStatusUpdate cause)) in
        exists w',
          taskSend clock taskHandler validateTaskSendParams req w =
            (Threw (Normalized cause (req_id req) (p_id (params req))), w') /\
          saves w' = saves w2 ++ [failed_data] /\
          load (taskStore w') (id (task failed_data)) = inr (Some failed_data) /\
          state (status (task failed_data)) = failed /\
          message (status (task failed_data)) = Value (failure_message cause) /\
          history failed_data = history last ++ [failure_message cause]
    end.
Proof.
  intros Hvalid Hload.
  destruct (loadOrCreate_stored w (p_id (params req)) (p_message (params req))
              (p_sessionId (params req)) (p_metadata (params req)) loaded Hload)
    as (data & w1 & Hdata & Hheld).
  exists data, w1.
  set (context := createTaskContext (task data) (p_message (params req))
                    (history data) w1).
  destruct (send_loop clock context (taskHandler context) (data, w1))
    as [out [last w2]] eqn:Hloop.
  exists out, last, w2. split; [exact Hdata|]. split; [exact Hloop|].
  pose proof (send_loop_holds context _ _ _ _ Hloop Hheld) as Hheld2.
  split; [exact Hheld2|].
  unfold taskSend. eff_unfold. rewrite Hvalid. cbv beta iota. rewrite Hdata.
  cbv beta iota. fold context. rewrite Hloop.
  destruct out as [[] | cause].
  - destruct (req_id req) as [rid|]; reflexivity.
  - pose proof (send_failed_result req cause last w2) as Hcatch.
    cbv zeta in Hcatch. destruct Hcatch as (w3 & Hfailed & Hsaves & Hheld3).
    rewrite Hfailed. exists w3. split; [reflexivity|]. split; [exact Hsaves|].
    split; [exact Hheld3|]. repeat split.
Qed.

(** X18.  With invalid parameters neither [taskSend] nor [taskSendSubscribe]
    touches anything: the validation error is thrown as it is, before the
    store is read and before the handler is called. *)
Theorem invalid_params_nothing_done (req : SendTaskRequest) (w : World) (e : Exn) :
  validateTaskSendParams req = Some e ->
  taskSend clock taskHandler validateTaskSendParams req w = (Threw e, w) /\
  taskSendSubscribe clock taskHandler validateTaskSendParams req w = (Threw e, w).
Proof.
  intros Hinvalid. unfold taskSend, taskSendSubscribe. eff_unfold.
  now rewrite Hinvalid.
Qed.

End SendProps.

Lemma taskSend_outcome_witness :
  let req := sample_request (Some (IdNumber 4)) in
  let handler := fun _ : TaskContext =>
    Yield (StatusValue {| u_state := working; u_message := None; u_timestamp := None |})
      (fun _ => Raise (JsError "boom")) in
  exists data w1 out last w2,
    loadOrCreateTaskAndHistory sample_clock (p_id (params req)) (p_message (params req))
      (p_sessionId (params req)) (p_metadata (params req)) empty_world
      = (Returned data, w1) /\
    (let context :=
       createTaskContext (task data) (p_message (params req)) (history data) w1 in
     send_loop sample_clock context (handler context) (data, w1) = (out, (last, w2))) /\
    load (taskStore w2) (id (task last)) = inr (Some last) /\
    match out with
    | Returned _ =>
        taskSend sample_clock handler accept_all req empty_world =
          (Returned match req_id req with
                    | Some rid =>
                        Some {| r_jsonrpc := "2.0"; r_id := rid; r_result := last |}
                    | None => None
                    end, w2)
    | Threw cause =>
        let failed_data :=
          applyUpdateToTaskAndHistory (sample_clock (ticks w2)) last
            (StatusValue (createTaskFailureStatusUpdate cause)) in
        exists w',
          taskSend sample_clock handler accept_all req empty_world =
            (Threw (Normalized cause (req_id req) (p_id (params req))), w') /\
          saves w' = saves w2 ++ [failed_data] /\
          load (taskStore w') (id (task failed_data)) = inr (Some failed_data) /\
          state (status (task failed_data)) = failed /\
          message (status (task failed_data)) = Value (failure_message cause) /\
          history failed_data = history last ++ [failure_message cause]
    end.
Proof.
  intros req handler.
  apply (taskSend_outcome sample_clock handler accept_all req empty_world None).
  - reflexivity.
  - reflexivity.
Defined.

Lemma invalid_params_nothing_done_witness :
  taskSend sample_clock working_only_handler
    (fun _ => Some (A2A (invalidParams "Invalid or missing task ID (params.id).")))
    (sample_request (Some (IdNumber 1))) empty_world
  = (Threw (A2A (invalidParams "Invalid or missing task ID (params.id).")), empty_world).
Proof.
  apply (invalid_params_nothing_done sample_clock working_only_handler
           (fun _ => Some (A2A (invalidParams "Invalid or missing task ID (params.id).")))
           (sample_request (Some (IdNumber 1))) empty_world).
  reflexivity.
Defined.


Section SendOrder.

Context {S : Type} `{ReliableStore S}.
Variable clock : nat -> Timestamp.


End SendOrder.


(** ** Streaming: every exit path *)

Section StreamClose.

Context {S : Type} `{TaskStore S}.
Variable clock : nat -> Timestamp.
Variable taskHandler : TaskContext -> Generator.
Variable validateTaskSendParams : SendTaskRequest -> option Exn.

Lemma try_finally_close {A : Type} (body : Eff (Locals * @World S) A)
    (s : Locals * @World S) (r : Outcome A) (l1 : Locals) (w1 : @World S) :
  body s = (r, (l1, w1)) ->
  exists w',
    try_finally body (lift close_stream) s = (r, (l1, w')) /\
    written w' = written w1 /\ closed w' = true.
Proof.
  intros Hbody. unfold try_finally, lift, close_stream. rewrite Hbody. cbn [fst snd].
  destruct (closed w1) eqn:E.
  - exists w1. repeat split. exact E.
  - exists (set_closed w1). repeat split.
Qed.

(** X20.  Once [taskSendSubscribe] has opened a stream it closes it: whenever
    the call returns, whatever the store did, whatever the request id is
    and whether the callback ended by returning or by throwing,
    [stream.closed] is true. *)
Theorem stream_always_closed (req : SendTaskRequest) (w : World)
    (r : Outcome unit) (w' : World) :
  taskSendSubscribe clock taskHandler validateTaskSendParams req w = (Returned r, w') ->
  closed w' = true.
Proof.
  unfold taskSendSubscribe. unfold mbind at 1 2. unfold Eff_bind.
  destruct (validateTaskSendParams req) as [e|]; cbn [throw mret Eff_ret];
    [intros Hrun; discriminate Hrun|].
  destruct (loadOrCreateTaskAndHistory clock _ _ _ _ w) as [[data|e] w1];
    [|intros Hrun; discriminate Hrun].
  unfold stream_callback.
  match goal with |- context [try_finally ?body _ ?s] =>
    destruct (body s) as [rb [l1 w1b]] eqn:Hbody;
    destruct (try_finally_close body s rb l1 w1b Hbody) as (w2 & -> & _ & Hclosed)
  end.
  intros Hrun. injection Hrun as _ <-. exact Hclosed.
Qed.

End StreamClose.

Lemma stream_always_closed_witness :
  closed (snd (taskSendSubscribe sample_clock (fun _ => Raise (NotAnError "oops"))
                 accept_all (sample_request None) empty_world)) = true.
Proof.
  apply (stream_always_closed sample_clock (fun _ => Raise (NotAnError "oops"))
           accept_all (sample_request None) empty_world
           (Threw (A2A (internalError "Cannot create a success response with a null ID")))).
  reflexivity.
Defined.


Section StreamingMore.

Context {S : Type} `{ReliableStore S}.
Variable clock : nat -> Timestamp.
Variable req : SendTaskRequest.
Variable context : TaskContext.
Variable rid : RequestId.
Hypothesis req_id_not_null : req_id req = Some rid.

(** X21.  A handler that throws while streaming, for a request id that is
    not [null] and a store that takes the writes: the failure status is
    applied to the task as it stood and saved, with the failure message as
    status message and as last entry of history; its event, marked final,
    is given to the stream; the callback returns and the stream is closed.
    The save lets the events given before reach the stream; the event of
    the failure is still in flight when the stream is closed, and does not
    reach it. *)
Theorem stream_handler_failure (g : Generator) (s : Locals * World) (error : Exn)
    (l1 : Locals) (w1 : World) :
  closed (snd s) = false ->
  drain clock req context g s = (Threw error, (l1, w1)) ->
  let failed_data :=
    applyUpdateToTaskAndHistory (clock (ticks w1)) (currentData l1)
      (StatusValue (createTaskFailureStatusUpdate error)) in
  exists l' w',
    stream_callback clock req context g s = (Returned tt, (l', w')) /\
    currentData l' = failed_data /\
    state (status (task failed_data)) = failed /\
    message (status (task failed_data)) = Value (failure_message error) /\
    history failed_data = history (currentData l1) ++ [failure_message error] /\
    saves w' = saves w1 ++ [failed_data] /\
    sent w' = sent w1 ++ [status_response req rid (status (task failed_data)) true] /\
    written w' = written w1 ++ pending w1 /\
    pending w' = [] /\
    closed w' = true.
Proof.
  intros Hopen Hrun failed_data.
  pose proof (drain_keeps_open clock req context rid req_id_not_null g s _ _ Hrun)
    as Hopen1.
  cbn [snd] in Hopen1. rewrite Hopen in Hopen1.
  rewrite (callback_failed clock req context rid req_id_not_null g s error l1 w1
             Hrun Hopen1).
  do 2 eexists. split; [reflexivity|].
  cbn [set_closed after_update currentData saves sent written pending closed].
  rewrite Hopen1. repeat split.
Qed.

End StreamingMore.

Lemma stream_handler_failure_witness :
  let g := Yield (StatusValue {| u_state := working; u_message := None;
                                 u_timestamp := None |})
             (fun _ => Raise (JsError "boom")) in
  let s := ({| currentData := sample_data submitted Null [user_says "hi"];
               lastEventWasFinal := false |},
            sample_world (sample_data submitted Null [user_says "hi"])) in
  let req := sample_request (Some (IdNumber 1)) in
  let l1 := fst (snd (drain sample_clock req sample_context g s)) in
  let w1 := snd (snd (drain sample_clock req sample_context g s)) in
  let failed_data :=
    applyUpdateToTaskAndHistory (sample_clock (ticks w1)) (currentData l1)
      (StatusValue (createTaskFailureStatusUpdate (JsError "boom"))) in
  exists l' w',
    stream_callback sample_clock req sample_context g s = (Returned tt, (l', w')) /\
    currentData l' = failed_data /\
    state (status (task failed_data)) = failed /\
    message (status (task failed_data)) = Value (failure_message (JsError "boom")) /\
    history failed_data = history (currentData l1) ++ [failure_message (JsError "boom")] /\
    saves w' = saves w1 ++ [failed_data] /\
    sent w' = sent w1 ++
              [status_response req (IdNumber 1) (status (task failed_data)) true] /\
    written w' = written w1 ++ pending w1 /\
    pending w' = [] /\
    closed w' = true.
Proof.
  intros g s req l1 w1.
  apply (stream_handler_failure sample_clock req sample_context (IdNumber 1) eq_refl
           g s (JsError "boom") l1 w1).
  - reflexivity.
  - reflexivity.
Defined.

Section StreamOps.

Context {S : Type} `{ReliableStore S}.
Variable clock : nat -> Timestamp.
Variable taskHandler : TaskContext -> Generator.
Variable validateTaskSendParams : SendTaskRequest -> option Exn.

(** The snapshot [loadOrCreateTaskAndHistory] returns is never in a state
    that is terminal for the stream: a new task is submitted, a task that
    was completed, failed or canceled is submitted again, and one that
    waited for input is working. *)
Lemma loadOrCreate_open (w : World) (taskId : string) (incoming : Message)
    (session : option string) (meta : option Metadata)
    (loaded : option TaskAndHistory) :
  load (taskStore w) taskId = inr loaded ->
  exists data w1,
    loadOrCreateTaskAndHistory clock taskId incoming session meta w
      = (Returned data, w1) /\
    ~ is_stream_terminal (state (status (task data))).
Proof.
  intros Hload. unfold loadOrCreateTaskAndHistory. eff_unfold.
  rewrite Hload. cbv beta iota.
  destruct loaded as [data|].
  - cbn [task status state].
    destruct (includes finalStates (state (status (task data)))) eqn:Efinal.
    + rewrite taskStore_save_reliable. do 2 eexists. split; [reflexivity|].
      intros [E | [E | [E | E]]]; discriminate E.
    + destruct (TaskState_eqb (state (status (task data))) input_required) eqn:Einput.
      * rewrite taskStore_save_reliable. do 2 eexists. split; [reflexivity|].
        intros [E | [E | [E | E]]]; discriminate E.
      * rewrite taskStore_save_reliable. do 2 eexists. split; [reflexivity|].
        cbn [task status state].
        intros [E | [E | [E | E]]]; rewrite E in Efinal, Einput;
          discriminate Efinal || discriminate Einput.
  - rewrite taskStore_save_reliable. do 2 eexists. split; [reflexivity|].
    intros [E | [E | [E | E]]]; discriminate E.
Qed.

(** X22.  Every run of [taskSendSubscribe] with valid parameters and a
    request id that is not [null], over a store that takes the writes,
    whatever the handler does (it yields a terminal state, ends without
    one, or throws): the callback returns; the events given to the stream
    are events that are not final followed by exactly one final event, a
    status event whose state is completed, failed, canceled or
    input-required; the stream is closed; and what has reached the stream
    is every event but the final one. *)
Theorem stream_run_events (req : SendTaskRequest) (rid : RequestId)
    (w : World) (loaded : option TaskAndHistory) :
  validateTaskSendParams req = None ->
  req_id req = Some rid ->
  load (taskStore w) (p_id (params req)) = inr loaded ->
  exists events last_status w',
    taskSendSubscribe clock taskHandler validateTaskSendParams req w
      = (Returned (Returned tt), w') /\
    sent w' = events ++ [status_response req rid last_status true] /\
    written w' = events /\
    Forall not_final events /\
    is_stream_terminal (state last_status) /\
    pending w' = [] /\
    closed w' = true.
Proof.
  intros Hvalid Hrid Hload.
  destruct (loadOrCreate_open w (p_id (params req)) (p_message (params req))
              (p_sessionId (params req)) (p_metadata (params req)) loaded Hload)
    as (data & w1 & Hdata & Hstate).
  unfold taskSendSubscribe. eff_unfold. rewrite Hvalid. cbv beta iota.
  rewrite Hdata. cbv beta iota.
  set (context := createTaskContext (task data) (p_message (params req))
                    (history data) w1).
  set (opened := mkWorld _ _ _ _ [] [] [] false).
  destruct (callback_run clock req context rid Hrid (taskHandler context)
              ({| currentData := data; lastEventWasFinal := false |}, opened)
              eq_refl eq_refl eq_refl Hstate)
    as (events & last_status & l' & w2 & Hcb & Hsent & Hwritten & Hall & Hterm
        & Hpending & Hclosed).
  rewrite Hcb. exists events, last_status, w2.
  split; [reflexivity|]. repeat split; assumption.
Qed.

End StreamOps.

Lemma stream_run_events_witness :
  exists events last_status w',
    taskSendSubscribe sample_clock
      (fun _ => Yield (ArtifactValue (text_artifact (Some 0) None "out"))
                  (fun _ => Raise (JsError "boom")))
      accept_all (sample_request (Some (IdString "r1"))) empty_world
      = (Returned (Returned tt), w') /\
    sent w' = events ++ [status_response (sample_request (Some (IdString "r1")))
                           (IdString "r1") last_status true] /\
    written w' = events /\
    Forall not_final events /\
    is_stream_terminal (state last_status) /\
    pending w' = [] /\
    closed w' = true.
Proof.
  apply (stream_run_events sample_clock
           (fun _ => Yield (ArtifactValue (text_artifact (Some 0) None "out"))
                       (fun _ => Raise (JsError "boom")))
           accept_all (sample_request (Some (IdString "r1"))) (IdString "r1")
           empty_world None).
  - reflexivity.
  - reflexivity.
  - reflexivity.
Defined.

(** ** Errors and the JSON-RPC route *)

(** X23.  [normalizeError] keeps the code, message and data of an [A2AError], turns
    any other [Error] into an internal error with its message, and anything
    else into an internal error with the fixed message and the value as
    data; the response has the request id it was given, and the task id
    argument has no part in it. *)
Theorem normalizeError_response (error : Throwable) (reqId : option RequestId)
    (taskId : option string) :
  er_id (normalizeError error reqId taskId) = reqId /\
  er_jsonrpc (normalizeError error reqId taskId) = "2.0" /\
  er_error (normalizeError error reqId taskId) =
    match error with
    | ThrownA2A e => {| je_code := code e; je_message := e_message e; je_data := e_data e |}
    | ThrownError msg stack =>
        {| je_code := InternalError; je_message := msg;
           je_data := Some (JObject [("stack", JString stack)]) |}
    | ThrownValue v =>
        {| je_code := InternalError; je_message := "An unknown error occurred.";
           je_data := v |}
    end /\
  (forall other, normalizeError error reqId other = normalizeError error reqId taskId).
Proof.
  assert (Hresp : forall t,
    er_error (normalizeError error reqId t) =
      match error with
      | ThrownA2A e => {| je_code := code e; je_message := e_message e; je_data := e_data e |}
      | ThrownError msg stack =>
          {| je_code := InternalError; je_message := msg;
             je_data := Some (JObject [("stack", JString stack)]) |}
      | ThrownValue v =>
          {| je_code := InternalError; je_message := "An unknown error occurred.";
             je_data := v |}
      end).
  { intros t. unfold normalizeError, normalizedError, createErrorResponse, toJSONRPCError.
    cbn [er_error]. destruct error as [e | msg stack | v];
      destruct (truthy t && negb (truthy (e_taskId _))); reflexivity. }
  repeat split.
  - apply Hresp.
  - intros other. unfold normalizeError, createErrorResponse. f_equal.
    pose proof (Hresp other) as Ho. pose proof (Hresp taskId) as Ht.
    unfold normalizeError, createErrorResponse in Ho, Ht. cbn [er_error] in Ho, Ht.
    congruence.
Qed.

Section RouteProps.

Variable W : Type.
Variable R : Type.
Variable operation : Method -> JSON -> W -> Delegated R * W.

Lemma route_catch_answer (requestId : option RequestId) (taskId : option string)
    (error : Throwable) (w w' : W) (response : JSONRPCErrorResponse) :
  route_catch W R requestId taskId error w = (Answered response, w') ->
  exists v,
    message_of error = Some (ThrownValue v) /\
    response = {| er_jsonrpc := "2.0"; er_id := requestId;
                  er_error := {| je_code := InternalError;
                                 je_message := "An unknown error occurred.";
                                 je_data := v |} |} /\
    w' = w.
Proof.
  unfold route_catch.
  destruct (message_of error) as [message|] eqn:Hm; [|discriminate].
  intros Hrun. injection Hrun as <- <-.
  assert (Hv : exists v, message = ThrownValue v)
    by (destruct error as [e | msg stack | [[| | | | |]|]]; simpl in Hm;
        try discriminate Hm; injection Hm as <-; eauto).
  destruct Hv as [v ->]. exists v. split; [reflexivity|]. split; [|reflexivity].
  unfold normalizeError, normalizedError, createErrorResponse, toJSONRPCError.
  destruct (truthy _ && negb (truthy _)); reflexivity.
Qed.

(** The id and the method of a valid envelope have a string form, so the
    log message of the route is built if [params.id] has one. *)
Lemma valid_request_logged (body : JSON) :
  isValidJsonRpcRequest body = true ->
  converts (params_id body) = true ->
  request_logged body = true.
Proof.
  unfold isValidJsonRpcRequest, request_logged. intros Hvalid Hparams.
  rewrite Hparams, andb_true_r.
  repeat (apply andb_true_iff in Hvalid as [Hvalid ?]).
  destruct (prop body "method") as [[| | | method | |]|]; try discriminate.
  destruct (prop body "id") as [[| | | | |]|]; try discriminate; reflexivity.
Qed.

(** X24.  Whatever goes wrong behind the route, the error response it sends has
    the code of an internal error and the fixed message: the route hands
    [error.message], a string or [undefined], to [normalizeError], so the
    code of a domain error (task not found, method not found, invalid
    params) never reaches the client. *)
Theorem route_answers_internal_error (parsed : option JSON) (w w' : W)
    (response : JSONRPCErrorResponse) :
  jsonrpc_route W R operation parsed w = (Answered response, w') ->
  je_code (er_error response) = InternalError /\
  je_message (er_error response) = "An unknown error occurred.".
Proof.
  assert (Hcatch : forall rid t error w0,
            route_catch W R rid t error w0 = (Answered response, w') ->
            je_code (er_error response) = InternalError /\
            je_message (er_error response) = "An unknown error occurred.").
  { intros rid t error w0 Hrun.
    destruct (route_catch_answer rid t error w0 w' response Hrun) as (v & _ & -> & _).
    split; reflexivity. }
  unfold jsonrpc_route.
  destruct parsed as [body|]; [|discriminate].
  destruct body as [| b | n | s | items | members]; try discriminate;
    (destruct (negb (request_logged _)); [discriminate|]);
    (destruct (negb (isValidJsonRpcRequest _)); [discriminate|]);
    (destruct (prop _ "method") as [[| | | method | |]|]; try apply Hcatch);
    (destruct (route method) as [m|]; [|apply Hcatch]);
    (destruct (operation m _ w) as [[r | error] w1]; [discriminate|]);
    (destruct (awaited m); [apply Hcatch | discriminate]).
Qed.

(** X25.  A valid envelope whose method is none of the four, and whose
    [params.id], if there is one, has a string form, is answered without
    any operation being run, by an error response that has the request id,
    the code of an internal error, and "Method not found: <method>" as
    data. *)
Theorem route_unknown_method (body : JSON) (method : string) (w : W) :
  isValidJsonRpcRequest body = true ->
  converts (params_id body) = true ->
  prop body "method" = Some (JString method) ->
  route method = None ->
  jsonrpc_route W R operation (Some body) w =
    (Answered {| er_jsonrpc := "2.0";
                 er_id := request_id_of (prop body "id");
                 er_error := {| je_code := InternalError;
                                je_message := "An unknown error occurred.";
                                je_data := Some (JString ("Method not found: " ++ method)) |} |},
     w).
Proof.
  intros Hvalid Hparams Hmethod Hroute. unfold jsonrpc_route.
  destruct body as [| b | n | s | items | members]; try discriminate Hvalid.
  rewrite (valid_request_logged _ Hvalid Hparams), Hvalid. cbn [negb].
  rewrite Hmethod, Hroute.
  unfold route_catch. cbn [message_of methodNotFound e_message].
  unfold normalizeError, normalizedError, createErrorResponse, toJSONRPCError.
  destruct (truthy _ && negb (truthy _)); reflexivity.
Qed.

(** X26.  A body that is not a valid envelope never reaches an operation
    and gets no JSON-RPC response: the route throws.  It throws an HTTP 400
    for a body that does not parse, for [null], and for a body whose id,
    method or [params.id] has no string form, the log message being built
    before the envelope is checked; for any other body it throws an
    [InvalidRequest] error, outside the [try] that would turn it into a
    response. *)
Theorem route_invalid_envelope (parsed : option JSON) (w : W) :
  match parsed with Some body => isValidJsonRpcRequest body = false | None => True end ->
  jsonrpc_route W R operation parsed w =
    (match parsed with
     | None | Some JNull => BadRequest "Invalid JSON-RPC request"
     | Some body =>
         if request_logged body
         then Rejected (invalidRequest "Invalid JSON-RPC request structure")
         else BadRequest "Invalid JSON-RPC request"
     end, w).
Proof.
  intros Hinvalid. unfold jsonrpc_route.
  destruct parsed as [body|]; [|reflexivity].
  destruct body; try reflexivity;
    (destruct (request_logged _); [|reflexivity]); now rewrite Hinvalid.
Qed.

(** X27.  A domain error thrown by [tasks/send], [tasks/get] or
    [tasks/cancel], such as [TaskNotFound], for a valid envelope whose
    [params.id] has a string form, is answered with the request id of the
    envelope; of the error only the message survives, as data: its code is
    replaced by that of an internal error. *)
Theorem route_domain_error (body : JSON) (method : string) (m : Method)
    (e : A2AError) (w w1 : W) :
  isValidJsonRpcRequest body = true ->
  converts (params_id body) = true ->
  prop body "method" = Some (JString method) ->
  route method = Some m ->
  m <> tasks_sendSubscribe ->
  operation m body w = (OperationThrew (ThrownA2A e), w1) ->
  jsonrpc_route W R operation (Some body) w =
    (Answered {| er_jsonrpc := "2.0";
                 er_id := request_id_of (prop body "id");
                 er_error := {| je_code := InternalError;
                                je_message := "An unknown error occurred.";
                                je_data := Some (JString (e_message e)) |} |},
     w1).
Proof.
  intros Hvalid Hparams Hmethod Hroute Hm Hop. unfold jsonrpc_route.
  destruct body as [| b | n | s | items | members]; try discriminate Hvalid.
  rewrite (valid_request_logged _ Hvalid Hparams), Hvalid. cbn [negb].
  rewrite Hmethod, Hroute, Hop.
  destruct m; try (now exfalso; apply Hm); cbn [awaited];
    unfold route_catch; cbn [message_of];
    unfold normalizeError, normalizedError, createErrorResponse, toJSONRPCError;
    destruct (truthy _ && negb (truthy _)); reflexivity.
Qed.

(** X28.  The route returns the promise of [tasks/sendSubscribe] without
    [await]: for a valid envelope whose [params.id] has a string form,
    whatever that operation throws before it has a stream, a parameter
    error or a failing store, is not turned into a JSON-RPC error
    response, it leaves the route unchanged. *)
Theorem route_subscribe_error_escapes (body : JSON) (error : Throwable) (w w1 : W) :
  isValidJsonRpcRequest body = true ->
  converts (params_id body) = true ->
  prop body "method" = Some (JString "tasks/sendSubscribe") ->
  operation tasks_sendSubscribe body w = (OperationThrew error, w1) ->
  jsonrpc_route W R operation (Some body) w = (Escaped error, w1).
Proof.
  intros Hvalid Hparams Hmethod Hop. unfold jsonrpc_route.
  destruct body as [| b | n | s | items | members]; try discriminate Hvalid.
  rewrite (valid_request_logged _ Hvalid Hparams), Hvalid. cbn [negb].
  rewrite Hmethod.
  change (route "tasks/sendSubscribe") with (Some tasks_sendSubscribe).
  cbv beta iota. rewrite Hop. reflexivity.
Qed.

End RouteProps.

Lemma route_answers_internal_error_witness :
  je_code (er_error (normalizeError (ThrownValue (Some (JString "Task not found: t1")))
                       (Some (IdNumber 5)) (Some "t1"))) = InternalError /\
  je_message (er_error (normalizeError (ThrownValue (Some (JString "Task not found: t1")))
                          (Some (IdNumber 5)) (Some "t1")))
  = "An unknown error occurred.".
Proof.
  apply (route_answers_internal_error unit unit not_found_operation
           (Some (envelope "tasks/get" (JNumber 5))) tt tt).
  reflexivity.
Defined.

Lemma route_unknown_method_witness :
  jsonrpc_route unit unit not_found_operation
    (Some (envelope "tasks/resubscribe" (JString "r7"))) tt =
  (Answered {| er_jsonrpc := "2.0";
               er_id := Some (IdString "r7");
               er_error := {| je_code := InternalError;
                              je_message := "An unknown error occurred.";
                              je_data := Some (JString "Method not found: tasks/resubscribe") |} |},
   tt).
Proof.
  apply (route_unknown_method unit unit not_found_operation
           (envelope "tasks/resubscribe" (JString "r7")) "tasks/resubscribe" tt).
  - reflexivity.
  - reflexivity.
  - reflexivity.
  - reflexivity.
Defined.

Lemma route_invalid_envelope_witness :
  jsonrpc_route unit unit not_found_operation
    (Some (JObject [("jsonrpc", JString "2.0"); ("method", JString "tasks/get");
                    ("id", JObject [("toString", JNumber 1)])])) tt
  = (BadRequest "Invalid JSON-RPC request", tt).
Proof.
  apply (route_invalid_envelope unit unit not_found_operation
           (Some (JObject [("jsonrpc", JString "2.0"); ("method", JString "tasks/get");
                           ("id", JObject [("toString", JNumber 1)])])) tt).
  reflexivity.
Defined.

Lemma route_domain_error_witness :
  jsonrpc_route unit unit not_found_operation
    (Some (envelope "tasks/cancel" JNull)) tt =
  (Answered {| er_jsonrpc := "2.0";
               er_id := None;
               er_error := {| je_code := InternalError;
                              je_message := "An unknown error occurred.";
                              je_data := Some (JString "Task not found: t1") |} |},
   tt).
Proof.
  apply (route_domain_error unit unit not_found_operation
           (envelope "tasks/cancel" JNull) "tasks/cancel" tasks_cancel
           (taskNotFound "t1") tt tt).
  - reflexivity.
  - reflexivity.
  - reflexivity.
  - reflexivity.
  - discriminate.
  - reflexivity.
Defined.

Lemma route_subscribe_error_escapes_witness :
  jsonrpc_route unit unit not_found_operation
    (Some (envelope "tasks/sendSubscribe" (JNumber 1))) tt =
  (Escaped (ThrownA2A (taskNotFound "t1")), tt).
Proof.
  apply (route_subscribe_error_escapes unit unit not_found_operation
           (envelope "tasks/sendSubscribe" (JNumber 1))
           (ThrownA2A (taskNotFound "t1")) tt tt).
  - reflexivity.
  - reflexivity.
  - reflexivity.
  - reflexivity.
Defined.

(** A valid envelope whose [params.id] is an object with a member named
    [toString] is answered by an HTTP 400, whatever its method: the
    operation is not run. *)
Example route_params_id_without_string_form :
  let body := JObject [("jsonrpc", JString "2.0"); ("method", JString "tasks/get");
                       ("id", JNumber 1);
                       ("params", JObject [("id", JObject [("toString", JNumber 1)])])] in
  isValidJsonRpcRequest body = true /\
  jsonrpc_route unit unit not_found_operation (Some body) tt
  = (BadRequest "Invalid JSON-RPC request", tt).
Proof. split; reflexivity. Qed.

(** ** The handler of index.ts *)

Section Index.

Context {S : Type} `{ReliableStore S}.
Variable clock : nat -> Timestamp.
Variable validateTaskSendParams : SendTaskRequest -> option Exn.

Lemma loadOrCreate_history (w : World) (taskId : string) (incoming : Message)
    (session : option string) (meta : option Metadata)
    (loaded : option TaskAndHistory) :
  load (taskStore w) taskId = inr loaded ->
  exists data w1,
    loadOrCreateTaskAndHistory clock taskId incoming session meta w
      = (Returned data, w1) /\
    history data =
      match loaded with Some stored => history stored | None => [] end ++ [incoming].
Proof.
  intros Hload. destruct loaded as [stored|].
  - destruct (loadOrCreate_existing clock w taskId incoming session meta stored Hload)
      as (w1 & Hrun & _).
    do 2 eexists. split; [exact Hrun|].
    destruct (includes finalStates (state (status (task stored)))); [reflexivity|].
    destruct (TaskState_eqb (state (status (task stored))) input_required); reflexivity.
  - unfold loadOrCreateTaskAndHistory. eff_unfold. rewrite Hload. cbv beta iota.
    rewrite taskStore_save_reliable. do 2 eexists. split; reflexivity.
Qed.

(** X29.  [tasks/send] served by the handler of index.ts, for valid parameters
    and a request id that is not [null]: the response carries a snapshot in
    state [completed] whose status message is still the greeting that came
    with the [working] update, and whose history is what was stored for the
    task (nothing, for a new id), then the message of the request, then the
    greeting. *)
Theorem index_handler_send (req : SendTaskRequest) (rid : RequestId) (w : World)
    (loaded : option TaskAndHistory) :
  validateTaskSendParams req = None ->
  req_id req = Some rid ->
  load (taskStore w) (p_id (params req)) = inr loaded ->
  exists result w',
    taskSend clock taskHandler_index validateTaskSendParams req w
      = (Returned (Some {| r_jsonrpc := "2.0"; r_id := rid; r_result := result |}), w') /\
    state (status (task result)) = completed /\
    message (status (task result)) = Value hello_message /\
    history result =
      match loaded with Some stored => history stored | None => [] end
      ++ [p_message (params req); hello_message].
Proof.
  intros Hvalid Hrid Hload.
  destruct (loadOrCreate_history w (p_id (params req)) (p_message (params req))
              (p_sessionId (params req)) (p_metadata (params req)) loaded Hload)
    as (data & w1 & Hdata & Hhistory).
  unfold taskSend. eff_unfold. rewrite Hvalid. cbv beta iota. rewrite Hdata.
  cbv beta iota. unfold try_catch, taskHandler_index.
  cbn [send_loop]. unfold applyUpdate. cbn [fst snd isTaskStatusUpdate].
  rewrite taskStore_save_reliable. cbn [send_loop fst snd].
  rewrite taskStore_save_reliable. cbn [send_loop mret Eff_ret].
  rewrite Hrid. do 2 eexists. split; [reflexivity|].
  split; [reflexivity|]. split; [reflexivity|].
  unfold applyUpdateToTaskAndHistory. cbn. rewrite Hhistory, <- app_assoc. reflexivity.
Qed.

End Index.

Lemma index_handler_send_witness :
  exists result w',
    taskSend sample_clock taskHandler_index accept_all
      (sample_request (Some (IdNumber 1)))
      (sample_world (sample_data completed Null [user_says "m1"; agent_says "m2"]))
      = (Returned (Some {| r_jsonrpc := "2.0"; r_id := IdNumber 1; r_result := result |}), w') /\
    state (status (task result)) = completed /\
    message (status (task result)) = Value hello_message /\
    history result = [user_says "m1"; agent_says "m2"] ++ [user_says "hi"; hello_message].
Proof.
  apply (index_handler_send sample_clock accept_all
           (sample_request (Some (IdNumber 1))) (IdNumber 1)
           (sample_world (sample_data completed Null [user_says "m1"; agent_says "m2"]))
           (Some (sample_data completed Null [user_says "m1"; agent_says "m2"]))).
  - reflexivity.
  - reflexivity.
  - reflexivity.
Defined.
